(** * models/model_choice.py: checkpoint loader and model factory

    A shallow embedding of [load_checkpoint] and [net].  Python values are an
    inductive type, dictionaries are finite maps, and the two functions run in
    a small monad that records the calls made to the outside world (printing,
    warnings, [torch.load], network constructors, ...) and stops at the first
    exception.  The libraries the module only calls (torch, torchvision, the
    network classes, the coordconv utility) are an interface record. *)

From Stdlib Require Import ZArith String Ascii List Bool Lia.
From Stdlib Require Import SpecFloat.
From stdpp Require Import gmap strings list fin_maps.

Set Warnings "-register-all".
Local Open Scope Z_scope.

(** ** Python values *)

(** The values a YAML configuration or a deserialized checkpoint is made of.
    [PObj] stands for any other object (a tensor, an optimizer state): the
    code only stores and returns such values. *)
Inductive pyval : Type :=
| PNone
| PBool (b : bool)
| PInt (n : Z)
| PFloat (f : spec_float)
| PStr (s : string)
| PList (l : list pyval)
| PDict (d : gmap string pyval)
| PObj (id : N).

(** [bool(v)]: the truth value Python's [if v:] tests. *)
Definition truthy (v : pyval) : bool :=
  match v with
  | PNone => false
  | PBool b => b
  | PInt n => negb (n =? 0)
  | PFloat (S754_zero _) => false
  | PFloat _ => true
  | PStr s => negb (String.eqb s "")
  | PList l => match l with [] => false | _ => true end
  | PDict d => negb (bool_decide (d = ∅))
  | PObj _ => true
  end.

(** [f == n] for a float [f] and an integer [n]; Python compares the two
    exactly. *)
Definition float_eq_int (f : spec_float) (n : Z) : bool :=
  match f with
  | S754_zero _ => n =? 0
  | S754_finite s m e =>
      let sm := if s then Z.neg m else Z.pos m in
      if 0 <=? e then sm * 2 ^ e =? n else sm =? n * 2 ^ (- e)
  | S754_infinity _ | S754_nan => false
  end.

(** [v == n] for an integer literal [n]: [True == 1] and [3.0 == 3] hold. *)
Definition py_eq_int (v : pyval) (n : Z) : bool :=
  match v with
  | PBool b => Z.b2z b =? n
  | PInt k => k =? n
  | PFloat f => float_eq_int f n
  | _ => false
  end.

(** [str.lower] on one ASCII character: the letters A-Z are mapped to a-z. *)
Definition lower_ascii (c : ascii) : ascii :=
  let n := nat_of_ascii c in
  if ((65 <=? n)%nat && (n <=? 90)%nat)%bool then ascii_of_nat (n + 32) else c.

(** [str.lower] on the UTF-8 bytes of a string.  ASCII letters are
    lowercased, and so is the Kelvin sign U+212A (bytes 226 132 170), the one
    character outside ASCII whose lowercase is ASCII text (the letter k).
    Every other byte is kept: the result is Python's on a string of ASCII
    characters and Kelvin signs, and on any other string both hold a
    character outside ASCII. *)
Fixpoint lower (s : string) : string :=
  match s with
  | EmptyString => EmptyString
  | String "226"%char (String "132"%char (String "170"%char s')) =>
      String "k"%char (lower s')
  | String c s' => String (lower_ascii c) (lower s')
  end.

(** The strings on which [lower] is [str.lower] exactly: ASCII characters and
    Kelvin signs. *)
Fixpoint lower_exact (s : string) : bool :=
  match s with
  | EmptyString => true
  | String "226"%char (String "132"%char (String "170"%char s')) => lower_exact s'
  | String c s' => (nat_of_ascii c <? 128)%nat && lower_exact s'
  end.

(** ** Messages, exceptions and events *)

(** A formatted string: literal text and interpolated values, in order. *)
Inductive piece : Type :=
| Lit (s : string)
| Val (v : pyval).

Definition message : Type := list piece.

Inductive exn_class : Type :=
| FileNotFoundError
| ValueError
| AssertionError
| KeyError
| TypeError
| AttributeError
| OtherError (name : string).

(** An exception: its class and its message.  For the exceptions the
    interpreter raises itself ([KeyError], [TypeError], [AttributeError]) the
    message holds the offending key or operand. *)
Record exn : Type := Exn { exn_cls : exn_class; exn_msg : message }.

Definition is_FileNotFoundError (e : exn) : bool :=
  match exn_cls e with FileNotFoundError => true | _ => false end.

(** The calls of the network constructors, with their arguments. *)
Inductive ctor_call : Type :=
| unet_UNetSmall (num_classes bands dropout dropout_prob : pyval)
| unet_UNet (num_classes bands dropout dropout_prob : pyval)
| TernausNet_ternausnet (num_classes : pyval)
| checkpointed_unet_UNetSmall (num_classes bands dropout dropout_prob : pyval)
| inception_Inception3 (num_classes bands : pyval)
| segmentation_fcn_resnet101 (pretrained progress : bool) (num_classes aux_loss : pyval)
| segmentation_deeplabv3_resnet101 (pretrained progress : bool) (num_classes aux_loss : pyval).

(** The keyword arguments of [coordconv.swap_coordconv_layers]. *)
Record coordconv_args : Type := CoordconvArgs {
  cc_centered : pyval;
  cc_normalized : pyval;
  cc_noise : pyval;
  cc_radius_channel : pyval;
  cc_scale : pyval
}.

(** What a run does to the outside world, in order. *)
Inductive event : Type :=
| EPrint (m : message)
| EWarn (m : message)
| ETorchLoad (f : pyval) (map_location : option string)
| EConstruct (c : ctor_call)
| ELoadStateDict (d : gmap string pyval) (strict : bool)
| ESwapCoordconv (a : coordconv_args).

(** ** The monad: a trace of events and a value or an exception *)

Inductive outcome (A : Type) : Type :=
| Ok (a : A)
| Raise (e : exn).
Arguments Ok {A} a.
Arguments Raise {A} e.

Definition py (A : Type) : Type := (list event * outcome A)%type.

Definition trace {A} (c : py A) : list event := fst c.
Definition result {A} (c : py A) : outcome A := snd c.

#[export] Instance py_ret : MRet py := λ A a, ([], Ok a).

#[export] Instance py_bind : MBind py := λ A B f c,
  match c with
  | (t, Ok a) => let '(t', r) := f a in (t ++ t', r)
  | (t, Raise e) => (t, Raise e)
  end.

Definition raise {A} (e : exn) : py A := ([], Raise e).
Definition emit (ev : event) : py unit := ([ev], Ok tt).
Definition lift {A} (ev : event) (r : outcome A) : py A := ([ev], r).

(** [try: c  except FileNotFoundError: h] *)
Definition try_except_FileNotFoundError {A} (c : py A) (h : py A) : py A :=
  match c with
  | (t, Raise e) =>
      if is_FileNotFoundError e then let '(t', r) := h in (t ++ t', r) else (t, Raise e)
  | ok => ok
  end.

(** [d[k]]: [KeyError] on a missing key, [TypeError] when [d] is no mapping. *)
Definition getitem (d : pyval) (k : string) : py pyval :=
  match d with
  | PDict m =>
      match m !! k with
      | Some v => mret v
      | None => raise (Exn KeyError [Val (PStr k)])
      end
  | _ => raise (Exn TypeError [Val d])
  end.

(** [v.lower()]: only strings have the method. *)
Definition str_lower (v : pyval) : py string :=
  match v with
  | PStr s => mret (lower s)
  | _ => raise (Exn AttributeError [Val v; Lit "lower"])
  end.

(** [assert b, msg] *)
Definition py_assert (b : bool) (msg : message) : py unit :=
  if b then mret tt else raise (Exn AssertionError msg).

(** ** The libraries behind the module *)

(** What a path names in the file system. *)
Inductive path_kind : Type :=
| RegularFile
| NoSuchPath
| Directory
| UnderRegularFile.

(** torch, torchvision and the repository's network classes, as far as this
    module calls them.  [path_kind_of] says what a path names; [deserialize]
    is what [torch.load] does with a regular file (reading and unpickling
    it) or with an argument that is no path. *)
Record torch_api (module : Type) : Type := TorchApi {
  cuda_is_available : bool;
  path_kind_of : string -> path_kind;
  deserialize : pyval -> option string -> outcome pyval;
  construct : ctor_call -> outcome module;
  state_dict : module -> gmap string pyval;
  load_state_dict : module -> gmap string pyval -> bool -> outcome module;
  swap_coordconv_layers : module -> coordconv_args -> outcome module
}.
Arguments cuda_is_available {module} _.
Arguments path_kind_of {module} _ _.
Arguments deserialize {module} _ _ _.
Arguments construct {module} _ _.
Arguments state_dict {module} _ _.
Arguments load_state_dict {module} _ _ _ _.
Arguments swap_coordconv_layers {module} _ _ _.

(** Modelled from the spec: utils.utils.get_key_def, a
    configuration-key-lookup-with-default utility. *)
Definition get_key_def (key : string) (config : pyval) (default : pyval) : pyval :=
  match config with
  | PDict m => match m !! key with Some v => v | None => default end
  | _ => default
  end.

(** [pat in s] *)
Fixpoint contains (pat s : string) : bool :=
  String.prefix pat s ||
  match s with
  | EmptyString => false
  | String _ s' => contains pat s'
  end.

(** Modelled from the spec: utils.utils.chop_layer, the state-dict-surgery
    utility that discards the entries of the named layers. *)
Definition chop_layer (pretrained_dict : gmap string pyval) (layer_names : list string)
  : gmap string pyval :=
  filter (λ kv, forallb (λ layer, negb (contains layer kv.1)) layer_names = true)
         pretrained_dict.

Section ModelChoice.

Context {module : Type} (api : torch_api module).

(** [torch.load(f, map_location=loc)].  For a path it opens the file
    first, and [open] raises the [OSError] subclass of what the path names:
    [FileNotFoundError] when nothing is there, [IsADirectoryError] for a
    directory, [NotADirectoryError] for a path that goes through a regular
    file. *)
Definition torch_load (f : pyval) (loc : option string) : py pyval :=
  lift (ETorchLoad f loc)
       (match f with
        | PStr p =>
            match path_kind_of api p with
            | RegularFile => deserialize api f loc
            | NoSuchPath =>
                Raise (Exn FileNotFoundError
                           [Lit "[Errno 2] No such file or directory: "; Val f])
            | Directory =>
                Raise (Exn (OtherError "IsADirectoryError")
                           [Lit "[Errno 21] Is a directory: "; Val f])
            | UnderRegularFile =>
                Raise (Exn (OtherError "NotADirectoryError")
                           [Lit "[Errno 20] Not a directory: "; Val f])
            end
        | _ => deserialize api f loc
        end).

Definition msg_loading (filename : pyval) : message :=
  [Lit "=> loading model '"; Val filename; Lit "'"].

Definition msg_no_model_found (filename : pyval) : message :=
  [Lit "=> No model found at '"; Val filename; Lit "'"].

(** [checkpoint.keys()] and [checkpoint.items()] need a mapping. *)
Definition dict_items (checkpoint : pyval) : py (gmap string pyval) :=
  match checkpoint with
  | PDict m => mret m
  | _ => raise (Exn AttributeError [Val checkpoint; Lit "keys"])
  end.

Definition load_checkpoint (filename : pyval) : py pyval :=
  try_except_FileNotFoundError
    (emit (EPrint (msg_loading filename));;
     checkpoint ← (if cuda_is_available api
                    then torch_load filename None
                    else torch_load filename (Some "cpu"));
     items ← dict_items checkpoint;
     if bool_decide (is_Some (items !! "model"))
     then mret checkpoint
     else
       let temp_checkpoint : gmap string pyval := {[ "model" := PDict items ]} in
       mret (PDict temp_checkpoint))
    (raise (Exn FileNotFoundError (msg_no_model_found filename))).

(** ** The factory *)

(** [net_params[section][key]] *)
Definition cfg (net_params : pyval) (section key : string) : py pyval :=
  d ← getitem net_params section;
  getitem d key.

Definition msg_one_class : message :=
  [Lit ("config specified that number of classes is 1, but model will be instantiated"
        +:+ " with a minimum of two regardless (will assume that 'background' exists)")].

Definition msg_bands : message :=
  [Lit "Number of bands specified incompatible with this model. Requires 3 band data."].

Definition msg_not_defined (model_name : string) : message :=
  [Lit "The model name "; Val (PStr model_name); Lit " in the config.yaml is not defined."].

(** The float literal [1.0]. *)
Definition float_one : spec_float := S754_finite false 4503599627370496 (-52).

Definition call_construct (c : ctor_call) : py module :=
  lift (EConstruct c) (construct api c).

(** [model.load_state_dict(d, strict=strict)]; the updated model is the
    value. *)
Definition call_load_state_dict (model : module) (d : gmap string pyval) (strict : bool)
  : py module :=
  lift (ELoadStateDict d strict) (load_state_dict api model d strict).

Definition call_swap_coordconv_layers (model : module) (a : coordconv_args) : py module :=
  lift (ESwapCoordconv a) (swap_coordconv_layers api model a).

(** Line 32: the lowercased model name. *)
Definition net_model_name (net_params : pyval) : py string :=
  v ← cfg net_params "global" "model_name";
  str_lower v.

(** Lines 33-37: the class count, raised to two when it is one. *)
Definition net_num_classes (net_params : pyval) : py pyval :=
  num_classes ← cfg net_params "global" "num_classes";
  if py_eq_int num_classes 1
  then emit (EWarn msg_one_class);; mret (PInt 2)
  else mret num_classes.

(** Lines 38-83: the [if]/[elif] chain on the model name. *)
Definition net_select (net_params : pyval) (model_name : string) (num_classes : pyval)
  : py module :=
  let msg := msg_bands in
  if String.eqb model_name "unetsmall" then
    bands ← cfg net_params "global" "number_of_bands";
    dropout ← cfg net_params "training" "dropout";
    dropout_prob ← cfg net_params "training" "dropout_prob";
    call_construct (unet_UNetSmall num_classes bands dropout dropout_prob)
  else if String.eqb model_name "unet" then
    bands ← cfg net_params "global" "number_of_bands";
    dropout ← cfg net_params "training" "dropout";
    dropout_prob ← cfg net_params "training" "dropout_prob";
    call_construct (unet_UNet num_classes bands dropout dropout_prob)
  else if String.eqb model_name "ternausnet" then
    bands ← cfg net_params "global" "number_of_bands";
    py_assert (py_eq_int bands 3) msg;;
    call_construct (TernausNet_ternausnet num_classes)
  else if String.eqb model_name "checkpointed_unet" then
    bands ← cfg net_params "global" "number_of_bands";
    dropout ← cfg net_params "training" "dropout";
    dropout_prob ← cfg net_params "training" "dropout_prob";
    call_construct (checkpointed_unet_UNetSmall num_classes bands dropout dropout_prob)
  else if String.eqb model_name "inception" then
    bands ← cfg net_params "global" "number_of_bands";
    call_construct (inception_Inception3 num_classes bands)
  else if String.eqb model_name "fcn_resnet101" then
    bands ← cfg net_params "global" "number_of_bands";
    py_assert (py_eq_int bands 3) msg;;
    coco_model ← call_construct (segmentation_fcn_resnet101 true true (PInt 21) PNone);
    model ← call_construct (segmentation_fcn_resnet101 false true num_classes PNone);
    let chopped_dict := chop_layer (state_dict api coco_model) ["classifier.4"%string] in
    call_load_state_dict model chopped_dict false
  else if String.eqb model_name "deeplabv3_resnet101" then
    bands ← cfg net_params "global" "number_of_bands";
    py_assert (py_eq_int bands 3) msg;;
    coco_model ← call_construct (segmentation_deeplabv3_resnet101 true true (PInt 21) PNone);
    model ← call_construct (segmentation_deeplabv3_resnet101 false true num_classes PNone);
    let chopped_dict := chop_layer (state_dict api coco_model) ["classifier.4"%string] in
    call_load_state_dict model chopped_dict false
  else
    raise (Exn ValueError (msg_not_defined model_name)).

(** Lines 85-94: the optional swap of the convolution layers. *)
Definition net_coordconv (net_params : pyval) (model : module) : py module :=
  g ← getitem net_params "global";
  let coordconv_convert := get_key_def "coordconv_convert" g (PBool false) in
  if truthy coordconv_convert then
    g ← getitem net_params "global";
    let centered := get_key_def "coordconv_centered" g (PBool true) in
    g ← getitem net_params "global";
    let normalized := get_key_def "coordconv_normalized" g (PBool true) in
    g ← getitem net_params "global";
    let noise := get_key_def "coordconv_noise" g PNone in
    g ← getitem net_params "global";
    let radius_channel := get_key_def "coordconv_radius_channel" g (PBool false) in
    g ← getitem net_params "global";
    let scale := get_key_def "coordconv_scale" g (PFloat float_one) in
    call_swap_coordconv_layers model
      (CoordconvArgs centered normalized noise radius_channel scale)
  else mret model.

(** Lines 96-103: which checkpoint to load, if any. *)
Definition net_checkpoint (net_params : pyval) (inference : bool) : py pyval :=
  p ← cfg net_params "training" "state_dict_path";
  if truthy p then
    state_dict_path ← cfg net_params "training" "state_dict_path";
    load_checkpoint state_dict_path
  else if inference then
    state_dict_path ← cfg net_params "inference" "state_dict_path";
    load_checkpoint state_dict_path
  else mret PNone.

Definition net (net_params : pyval) (inference : bool) : py (module * pyval * string) :=
  model_name ← net_model_name net_params;
  num_classes ← net_num_classes net_params;
  model ← net_select net_params model_name num_classes;
  model ← net_coordconv net_params model;
  checkpoint ← net_checkpoint net_params inference;
  mret (model, checkpoint, model_name).

End ModelChoice.

(** ** Vocabulary of the properties *)

Section Vocabulary.

Context {module : Type} (api : torch_api module).

(** The [map_location] argument [load_checkpoint] passes to [torch.load]. *)
Definition map_location : option string :=
  if cuda_is_available api then None else Some "cpu"%string.

(** What [torch.load] gives for the file name, as [load_checkpoint] calls
    it. *)
Definition deserialized (filename : pyval) : outcome pyval :=
  result (torch_load api filename map_location).

(** The run of [net] once the model name and the class count are known
    (lines 38-105). *)
Definition net_rest (net_params : pyval) (inference : bool) (model_name : string)
    (num_classes : pyval) : py (module * pyval * string) :=
  model ← net_select api net_params model_name num_classes;
  model ← net_coordconv api net_params model;
  checkpoint ← net_checkpoint api net_params inference;
  mret (model, checkpoint, model_name).

(** The model part of [net] (lines 32-94): everything before the checkpoint
    is looked at. *)
Definition net_model (net_params : pyval) : py (module * string) :=
  model_name ← net_model_name net_params;
  num_classes ← net_num_classes net_params;
  model ← net_select api net_params model_name num_classes;
  model ← net_coordconv api net_params model;
  mret (model, model_name).

(** A model that is reached from [m0] by the calls that update a model. *)
Inductive evolves (m0 : module) : module → Prop :=
| evolves_refl : evolves m0 m0
| evolves_load m d strict m' :
    evolves m0 m → load_state_dict api m d strict = Ok m' → evolves m0 m'
| evolves_swap m a m' :
    evolves m0 m → swap_coordconv_layers api m a = Ok m' → evolves m0 m'.

(** The path names a regular file. *)
Definition resolves_to_file (p : string) : bool :=
  match path_kind_of api p with RegularFile => true | _ => false end.

End Vocabulary.

(** The arguments [net] passes to [swap_coordconv_layers], read from the
    ['global'] section [g]. *)
Definition coordconv_args_of (g : pyval) : coordconv_args :=
  CoordconvArgs (get_key_def "coordconv_centered" g (PBool true))
                (get_key_def "coordconv_normalized" g (PBool true))
                (get_key_def "coordconv_noise" g PNone)
                (get_key_def "coordconv_radius_channel" g (PBool false))
                (get_key_def "coordconv_scale" g (PFloat float_one)).

(** The network variants [net] can build. *)
Inductive variant : Type :=
| VUNetSmall | VUNet | VTernausNet | VCheckpointedUNet | VInception
| VFcnResnet101 | VDeeplabv3Resnet101.

Definition variant_of_name (model_name : string) : option variant :=
  if String.eqb model_name "unetsmall" then Some VUNetSmall
  else if String.eqb model_name "unet" then Some VUNet
  else if String.eqb model_name "ternausnet" then Some VTernausNet
  else if String.eqb model_name "checkpointed_unet" then Some VCheckpointedUNet
  else if String.eqb model_name "inception" then Some VInception
  else if String.eqb model_name "fcn_resnet101" then Some VFcnResnet101
  else if String.eqb model_name "deeplabv3_resnet101" then Some VDeeplabv3Resnet101
  else None.

Definition variant_name (v : variant) : string :=
  match v with
  | VUNetSmall => "unetsmall"
  | VUNet => "unet"
  | VTernausNet => "ternausnet"
  | VCheckpointedUNet => "checkpointed_unet"
  | VInception => "inception"
  | VFcnResnet101 => "fcn_resnet101"
  | VDeeplabv3Resnet101 => "deeplabv3_resnet101"
  end.

Definition ctor_variant (c : ctor_call) : variant :=
  match c with
  | unet_UNetSmall _ _ _ _ => VUNetSmall
  | unet_UNet _ _ _ _ => VUNet
  | TernausNet_ternausnet _ => VTernausNet
  | checkpointed_unet_UNetSmall _ _ _ _ => VCheckpointedUNet
  | inception_Inception3 _ _ => VInception
  | segmentation_fcn_resnet101 _ _ _ _ => VFcnResnet101
  | segmentation_deeplabv3_resnet101 _ _ _ _ => VDeeplabv3Resnet101
  end.

(** The variants that need three input bands. *)
Definition band_constrained (v : variant) : bool :=
  match v with
  | VTernausNet | VFcnResnet101 | VDeeplabv3Resnet101 => true
  | _ => false
  end.


(** The [num_classes] argument of a constructor call. *)
Definition ctor_num_classes (c : ctor_call) : pyval :=
  match c with
  | unet_UNetSmall n _ _ _ | unet_UNet n _ _ _ | TernausNet_ternausnet n
  | checkpointed_unet_UNetSmall n _ _ _ | inception_Inception3 n _
  | segmentation_fcn_resnet101 _ _ n _ | segmentation_deeplabv3_resnet101 _ _ n _ => n
  end.

(** The calls that build the pretrained donor network. *)
Definition is_pretrained (c : ctor_call) : bool :=
  match c with
  | segmentation_fcn_resnet101 p _ _ _ | segmentation_deeplabv3_resnet101 p _ _ _ => p
  | _ => false
  end.

Definition is_construct (ev : event) : bool :=
  match ev with EConstruct _ => true | _ => false end.

Definition is_torch_load (ev : event) : bool :=
  match ev with ETorchLoad _ _ => true | _ => false end.

Definition is_load_state_dict (ev : event) : bool :=
  match ev with ELoadStateDict _ _ => true | _ => false end.


Definition is_swap (ev : event) : bool :=
  match ev with ESwapCoordconv _ => true | _ => false end.

Definition is_print (ev : event) : bool :=
  match ev with EPrint _ => true | _ => false end.

(** The variants whose constructor takes the dropout settings. *)
Definition reads_dropout (v : variant) : bool :=
  match v with
  | VUNetSmall | VUNet | VCheckpointedUNet => true
  | _ => false
  end.

(** A model part followed by a checkpoint part, put together as [net]
    returns them. *)
Definition with_checkpoint {module : Type} (c : py (module * string)) (k : py pyval)
  : py (module * pyval * string) :=
  mn ← c;
  checkpoint ← k;
  mret (mn.1, checkpoint, mn.2).

Section Preconditions.

Context {module : Type} (api : torch_api module).


(** The configuration holds what the branch of variant [v] reads, with a
    band count that passes its check. *)
Definition selectable (net_params : pyval) (v : variant) : Prop :=
  ∃ b, cfg net_params "global" "number_of_bands" = mret b ∧
       (band_constrained v = true → py_eq_int b 3 = true) ∧
       (reads_dropout v = true →
          ∃ d dp, cfg net_params "training" "dropout" = mret d ∧
                  cfg net_params "training" "dropout_prob" = mret dp).

(** No call of a constructor or of a model update fails. *)
Definition libraries_succeed : Prop :=
  (∀ c, ∃ m, construct api c = Ok m) ∧
  (∀ m d strict, ∃ m', load_state_dict api m d strict = Ok m') ∧
  (∀ m a, ∃ m', swap_coordconv_layers api m a = Ok m').

End Preconditions.

(** ** A concrete world to run the code in *)

Module Demo.

(** A network, described by how it was built. *)
Record net_obj : Type := NetObj {
  built_by : ctor_call;
  params : gmap string pyval;
  swapped : option coordconv_args
}.

Definition coco_params : gmap string pyval :=
  {[ "backbone.conv1.weight" := PObj 1;
     "classifier.0.weight" := PObj 2;
     "classifier.4.weight" := PObj 3;
     "classifier.4.bias" := PObj 4 ]}.

Definition fresh_params : gmap string pyval :=
  {[ "backbone.conv1.weight" := PObj 11;
     "classifier.0.weight" := PObj 12;
     "classifier.4.weight" := PObj 13;
     "classifier.4.bias" := PObj 14 ]}.

Definition external_ckpt : gmap string pyval :=
  {[ "conv1.weight" := PObj 21; "conv1.bias" := PObj 22 ]}.

Definition trained_ckpt : gmap string pyval :=
  {[ "model" := PDict external_ckpt; "optimizer" := PObj 23 ]}.

Definition api : torch_api net_obj := {|
  cuda_is_available := false;
  path_kind_of p :=
    if bool_decide (p ∈ ["external.pth"; "trained.pth.tar"; "broken.pth"; "tensor.pth";
                         "dangling.pth"])
    then RegularFile
    else if String.eqb p "checkpoints" then Directory
    else if String.eqb p "trained.pth.tar/model" then UnderRegularFile
    else NoSuchPath;
  deserialize f loc :=
    match f with
    | PStr "external.pth" => Ok (PDict external_ckpt)
    | PStr "trained.pth.tar" => Ok (PDict trained_ckpt)
    | PStr "tensor.pth" => Ok (PObj 30)
    | PStr "dangling.pth" =>
        Raise (Exn FileNotFoundError
                   [Lit "[Errno 2] No such file or directory: "; Val (PStr "storage.bin")])
    | _ => Raise (Exn (OtherError "UnpicklingError") [Lit "invalid load key"])
    end;
  construct c :=
    Ok (NetObj c (if is_pretrained c then coco_params else fresh_params) None);
  state_dict m := params m;
  load_state_dict m d strict :=
    Ok (NetObj (built_by m) (union (filter (λ kv, is_Some (params m !! kv.1)) d) (params m))
               (swapped m));
  swap_coordconv_layers m a := Ok (NetObj (built_by m) (params m) (Some a))
|}.

Definition config (model_name : string) (num_classes bands : pyval)
    (extra : gmap string pyval) (train_path : pyval) : pyval :=
  PDict {[
    "global" := PDict (<["model_name" := PStr model_name]>
                       (<["num_classes" := num_classes]>
                        (<["number_of_bands" := bands]> extra)));
    "training" := PDict {[ "dropout" := PBool false; "dropout_prob" := PNone;
                           "state_dict_path" := train_path ]};
    "inference" := PDict {[ "state_dict_path" := PStr "trained.pth.tar" ]} ]}.

Definition cpu : option string := Some "cpu"%string.

(** A U-Net configured with one class, written in mixed case. *)
Definition cfg_unet (train_path : pyval) : pyval :=
  config "UNet" (PInt 1) (PInt 4) ∅ train_path.

Definition unet_call : ctor_call := unet_UNet (PInt 2) (PInt 4) (PBool false) PNone.

Definition unet_model : net_obj := NetObj unet_call fresh_params None.

Definition wrapped_external : pyval := PDict {[ "model" := PDict external_ckpt ]}.

Definition unet_trace_external : list event :=
  [EWarn msg_one_class; EConstruct unet_call;
   EPrint (msg_loading (PStr "external.pth"));
   ETorchLoad (PStr "external.pth") cpu].

Definition unet_trace_trained : list event :=
  [EWarn msg_one_class; EConstruct unet_call;
   EPrint (msg_loading (PStr "trained.pth.tar"));
   ETorchLoad (PStr "trained.pth.tar") cpu].

(** FCN-ResNet101 with five classes, coordconv conversion and an empty
    training path. *)
Definition cfg_fcn : pyval :=
  config "FCN_ResNet101" (PInt 5) (PInt 3) {[ "coordconv_convert" := PBool true ]}
         (PStr "").

Definition fcn_donor_call : ctor_call := segmentation_fcn_resnet101 true true (PInt 21) PNone.
Definition fcn_call : ctor_call := segmentation_fcn_resnet101 false true (PInt 5) PNone.

Definition fcn_chopped : gmap string pyval :=
  {[ "backbone.conv1.weight" := PObj 1; "classifier.0.weight" := PObj 2 ]}.

Definition fcn_loaded_params : gmap string pyval :=
  {[ "backbone.conv1.weight" := PObj 1;
     "classifier.0.weight" := PObj 2;
     "classifier.4.weight" := PObj 13;
     "classifier.4.bias" := PObj 14 ]}.

Definition default_args : coordconv_args :=
  CoordconvArgs (PBool true) (PBool true) PNone (PBool false) (PFloat float_one).

Definition fcn_model : net_obj := NetObj fcn_call fcn_loaded_params (Some default_args).

Definition fcn_trace_model : list event :=
  [EConstruct fcn_donor_call; EConstruct fcn_call; ELoadStateDict fcn_chopped false].

Definition fcn_trace_load : list event :=
  [EPrint (msg_loading (PStr "trained.pth.tar")); ETorchLoad (PStr "trained.pth.tar") cpu].

Definition fcn_trace : list event :=
  fcn_trace_model ++ [ESwapCoordconv default_args] ++ fcn_trace_load.

(** TernausNet with a given band count, and a name [net] does not know. *)
Definition cfg_ternausnet (bands : pyval) : pyval :=
  config "TernausNet" (PInt 2) bands ∅ PNone.

Definition cfg_resnet : pyval := config "ResNet50" (PInt 2) (PInt 3) ∅ PNone.

(** A ['global'] section without the class count, and one whose model name
    is a number. *)
Definition global_no_classes : gmap string pyval :=
  {[ "model_name" := PStr "ResNet50" ]}.

Definition global_numeric_name : gmap string pyval :=
  {[ "model_name" := PInt 7; "num_classes" := PInt 2 ]}.

(** The ['global'] section of [cfg_unet]. *)
Definition global_unet : pyval :=
  PDict {[ "model_name" := PStr "UNet"; "num_classes" := PInt 1;
           "number_of_bands" := PInt 4 ]}.

(** TernausNet with three bands and a training section that holds the
    checkpoint path alone; no inference section. *)
Definition top_ternausnet (train_path : pyval) : gmap string pyval :=
  {[ "global" := PDict {[ "model_name" := PStr "TernausNet"; "num_classes" := PInt 2;
                          "number_of_bands" := PInt 3 ]};
     "training" := PDict {[ "state_dict_path" := train_path ]} ]}.

Definition ternausnet_call : ctor_call := TernausNet_ternausnet (PInt 2).
Definition ternausnet_model : net_obj := NetObj ternausnet_call fresh_params None.

(** The checkpointed U-Net, its name written in capitals with a Kelvin sign
    for the letter K. *)
Definition kelvin_name : string :=
  "CHEC" +:+ String "226" (String "132" (String "170" "POINTED_unet")).

Definition cfg_checkpointed : pyval := config kelvin_name (PInt 3) (PInt 5) ∅ PNone.

Definition is_a_directory_error (p : string) : exn :=
  Exn (OtherError "IsADirectoryError") [Lit "[Errno 21] Is a directory: "; Val (PStr p)].

Definition unpickling_error : exn :=
  Exn (OtherError "UnpicklingError") [Lit "invalid load key"].

End Demo.

(** ** Reasoning about runs *)

Section Runs.

Context {A B : Type}.

Lemma bind_unfold (f : A → py B) (c : py A) :
  c ≫= f =
  match c with
  | (t, Ok a) => (t ++ trace (f a), result (f a))
  | (t, Raise e) => (t, Raise e)
  end.
Proof.
  destruct c as [t [a|e]]; unfold mbind, py_bind; [|reflexivity].
  destruct (f a); reflexivity.
Qed.

Lemma bind_Ok (f : A → py B) (c : py A) t a :
  c = (t, Ok a) → c ≫= f = (t ++ trace (f a), result (f a)).
Proof. intros ->. apply bind_unfold. Qed.

Lemma bind_pure (f : A → py B) (c : py A) a :
  c = mret a → c ≫= f = f a.
Proof. intros ->. rewrite bind_unfold. simpl. by destruct (f a). Qed.

Lemma bind_Raise (f : A → py B) (c : py A) t e :
  c = (t, Raise e) → c ≫= f = (t, Raise e).
Proof. intros ->. apply bind_unfold. Qed.

Lemma bind_Ok_inv (f : A → py B) (c : py A) t b :
  c ≫= f = (t, Ok b) →
  ∃ t1 a t2, c = (t1, Ok a) ∧ f a = (t2, Ok b) ∧ t = t1 ++ t2.
Proof.
  rewrite bind_unfold. destruct c as [t1 [a|e]]; [|discriminate].
  destruct (f a) as [t2 r] eqn:Hf. simpl. intros [= <- ->]. eauto 6.
Qed.

Lemma trace_bind (f : A → py B) (c : py A) :
  trace (c ≫= f) =
  match result c with Ok a => trace c ++ trace (f a) | Raise _ => trace c end.
Proof. rewrite bind_unfold. by destruct c as [t [a|e]]. Qed.

End Runs.

(** Reading the configuration has no effect on the world. *)
Lemma getitem_trace d k : trace (getitem d k) = [].
Proof. destruct d; try reflexivity. simpl. by destruct (_ !! _). Qed.

Lemma cfg_trace np s k : trace (cfg np s k) = [].
Proof.
  unfold cfg. rewrite trace_bind, getitem_trace.
  destruct (result _); [apply getitem_trace | reflexivity].
Qed.

Lemma getitem_Ok_inv d k t v :
  getitem d k = (t, Ok v) → t = [] ∧ ∃ m, d = PDict m ∧ m !! k = Some v.
Proof.
  destruct d; try discriminate. simpl.
  destruct (_ !! _) eqn:E; [|discriminate]. intros [= <- <-]. eauto.
Qed.

Lemma cfg_Ok_inv np s k t v :
  cfg np s k = (t, Ok v) →
  t = [] ∧ ∃ top m, np = PDict top ∧ top !! s = Some (PDict m) ∧ m !! k = Some v.
Proof.
  unfold cfg. intros (t1 & d & t2 & H1 & H2 & ->)%bind_Ok_inv.
  apply getitem_Ok_inv in H1 as (-> & top & -> & Hs).
  apply getitem_Ok_inv in H2 as (-> & m & -> & Hk). eauto 7.
Qed.

(** ** The checkpoint loader *)

Section LoadCheckpoint.

Context {module : Type} (api : torch_api module).

Lemma load_checkpoint_unfold filename :
  load_checkpoint api filename =
  ([EPrint (msg_loading filename); ETorchLoad filename (map_location api)],
   match deserialized api filename with
   | Ok (PDict items) =>
       if bool_decide (is_Some (items !! "model"%string))
       then Ok (PDict items)
       else Ok (PDict {[ "model"%string := PDict items ]})
   | Ok v => Raise (Exn AttributeError [Val v; Lit "keys"])
   | Raise e =>
       if is_FileNotFoundError e
       then Raise (Exn FileNotFoundError (msg_no_model_found filename))
       else Raise e
   end).
Proof.
  unfold load_checkpoint, deserialized, map_location, torch_load, lift.
  destruct (cuda_is_available api); simpl;
    (destruct (match filename with PStr _ => _ | _ => _ end) as [v|e]; simpl;
     [ destruct v; simpl; try reflexivity; by case_bool_decide
     | by destruct (is_FileNotFoundError e) ]).
Qed.

End LoadCheckpoint.

(** ** Events of a run *)

Lemma filter_none {A} (P : A → Prop) `{∀ x, Decision (P x)} (l : list A) :
  Forall (λ x, ¬ P x) l → filter P l = [].
Proof. induction 1; [done|]. by rewrite filter_cons_False. Qed.

Section Traces.

Context {module : Type} (api : torch_api module) (P : event → Prop).

Lemma Forall_trace_bind {A B} (c : py A) (f : A → py B) :
  Forall P (trace c) →
  (∀ a, result c = Ok a → Forall P (trace (f a))) →
  Forall P (trace (c ≫= f)).
Proof.
  intros Hc Hf. rewrite trace_bind. destruct (result c); [|done].
  apply Forall_app; auto.
Qed.

Lemma Forall_trace_run {A} (c : py A) t r :
  c = (t, r) → Forall P (trace c) → Forall P t.
Proof. by intros ->. Qed.

Lemma Forall_trace_lift {A} ev (r : outcome A) : P ev → Forall P (trace (lift ev r)).
Proof. intros H. by constructor. Qed.

Lemma Forall_trace_emit ev : P ev → Forall P (trace (emit ev)).
Proof. intros H. by constructor. Qed.

Lemma Forall_trace_assert b msg : Forall P (trace (py_assert b msg)).
Proof. destruct b; constructor. Qed.

Lemma Forall_trace_str_lower v : Forall P (trace (str_lower v)).
Proof. destruct v; constructor. Qed.

Lemma Forall_trace_load_checkpoint filename :
  P (EPrint (msg_loading filename)) →
  P (ETorchLoad filename (map_location api)) →
  Forall P (trace (load_checkpoint api filename)).
Proof. intros H1 H2. rewrite load_checkpoint_unfold. simpl. by repeat constructor. Qed.

End Traces.

Ltac trace_forall :=
  repeat match goal with
  | |- Forall _ (trace (if ?b then _ else _)) => destruct b eqn:?
  | |- Forall _ (trace (_ ≫= _)) => apply Forall_trace_bind; [|intros ? ?]
  | |- Forall _ (trace (cfg _ _ _)) => rewrite cfg_trace; constructor
  | |- Forall _ (trace (getitem _ _)) => rewrite getitem_trace; constructor
  | |- Forall _ (trace (mret _)) => apply Forall_nil_2
  | |- Forall _ (trace (raise _)) => apply Forall_nil_2
  | |- Forall _ (trace (py_assert _ _)) => apply Forall_trace_assert
  | |- Forall _ (trace (str_lower _)) => apply Forall_trace_str_lower
  | |- Forall _ (trace (lift _ _)) => apply Forall_trace_lift
  | |- Forall _ (trace (emit _)) => apply Forall_trace_emit
  | |- Forall _ (trace (load_checkpoint _ _)) => apply Forall_trace_load_checkpoint
  end.

(** ** The blocks of [net] *)

Lemma variant_of_name_inv name v : variant_of_name name = Some v → name = variant_name v.
Proof.
  unfold variant_of_name.
  repeat (destruct (String.eqb name _) eqn:E;
          [apply String.eqb_eq in E as ->; by intros [= <-] | clear E]).
  discriminate.
Qed.

Section Blocks.

Context {module : Type} (api : torch_api module).

Lemma net_model_name_trace np : trace (net_model_name np) = [].
Proof.
  unfold net_model_name. rewrite trace_bind, cfg_trace.
  destruct (result _) as [v|]; [|done]. by destruct v.
Qed.

Lemma net_model_name_Ok_inv np t name :
  net_model_name np = (t, Ok name) →
  t = [] ∧ ∃ s, cfg np "global" "model_name" = mret (PStr s) ∧ name = lower s.
Proof.
  unfold net_model_name. intros (t1 & v & t2 & H1 & H2 & ->)%bind_Ok_inv.
  destruct (cfg_Ok_inv _ _ _ _ _ H1) as [-> _].
  destruct v; try discriminate. injection H2 as <- <-. eauto.
Qed.

Lemma net_model_name_lookup np s :
  cfg np "global" "model_name" = mret (PStr s) → net_model_name np = mret (lower s).
Proof. intros H. unfold net_model_name. by rewrite (bind_pure _ _ _ H). Qed.

Lemma net_num_classes_lookup np nc :
  cfg np "global" "num_classes" = mret nc →
  net_num_classes np =
  if py_eq_int nc 1 then ([EWarn msg_one_class], Ok (PInt 2)) else mret nc.
Proof.
  intros H. unfold net_num_classes. rewrite (bind_pure _ _ _ H).
  by destruct (py_eq_int nc 1).
Qed.

Lemma net_select_unknown np name nc :
  variant_of_name name = None →
  net_select api np name nc = raise (Exn ValueError (msg_not_defined name)).
Proof.
  unfold variant_of_name, net_select.
  repeat (destruct (String.eqb name _); [discriminate|]). done.
Qed.

Lemma net_select_bands_mismatch np v nc b :
  band_constrained v = true →
  cfg np "global" "number_of_bands" = mret b →
  py_eq_int b 3 = false →
  net_select api np (variant_name v) nc = raise (Exn AssertionError msg_bands).
Proof.
  intros Hv Hb H3.
  destruct v; try discriminate; unfold net_select;
    cbn [variant_name String.eqb Ascii.eqb Bool.eqb];
    rewrite (bind_pure _ _ _ Hb), H3; reflexivity.
Qed.

Lemma net_select_bands_match np v nc b :
  band_constrained v = true →
  cfg np "global" "number_of_bands" = mret b →
  py_eq_int b 3 = true →
  ∃ first t, ctor_variant first = v ∧
             trace (net_select api np (variant_name v) nc) = EConstruct first :: t.
Proof.
  intros Hv Hb H3.
  destruct v; try discriminate; unfold net_select;
    cbn [variant_name String.eqb Ascii.eqb Bool.eqb];
    rewrite (bind_pure _ _ _ Hb), H3;
    rewrite (bind_pure _ (py_assert true _) tt eq_refl);
    rewrite ?trace_bind; unfold call_construct, lift; cbn [trace result fst snd].
  - eexists _, _; split; [|reflexivity]; reflexivity.
  - destruct (construct api _); (eexists _, _; split; [|reflexivity]; reflexivity).
  - destruct (construct api _); (eexists _, _; split; [|reflexivity]; reflexivity).
Qed.

(** Every constructor call of [net_select] is for the variant of the name. *)
Lemma net_select_constructs np name nc (Q : ctor_call → Prop) :
  (∀ c, variant_of_name name = Some (ctor_variant c) →
        (is_pretrained c = false → ctor_num_classes c = nc) → Q c) →
  Forall (λ ev, ∀ c, ev = EConstruct c → Q c) (trace (net_select api np name nc)).
Proof.
  intros HQ. unfold net_select.
  repeat (destruct (String.eqb name _) eqn:E;
          [apply String.eqb_eq in E; subst name;
           unfold call_construct, call_load_state_dict; trace_forall;
           intros c [= <-]; apply HQ; done | clear E]).
  trace_forall.
Qed.

Lemma net_select_events (P : event → Prop) np name nc :
  (∀ c, P (EConstruct c)) → (∀ d, P (ELoadStateDict d false)) →
  Forall P (trace (net_select api np name nc)).
Proof.
  intros Hc Hl. unfold net_select, call_construct, call_load_state_dict.
  trace_forall; auto.
Qed.

Lemma net_num_classes_events (P : event → Prop) np :
  P (EWarn msg_one_class) → Forall P (trace (net_num_classes np)).
Proof. intros Hw. unfold net_num_classes. trace_forall; auto. Qed.

Lemma net_coordconv_events (P : event → Prop) np model :
  (∀ a, P (ESwapCoordconv a)) → Forall P (trace (net_coordconv api np model)).
Proof.
  intros Hs. unfold net_coordconv, call_swap_coordconv_layers. trace_forall; auto.
Qed.

Lemma net_checkpoint_events (P : event → Prop) np inf :
  (∀ f, P (EPrint (msg_loading f))) → (∀ f, P (ETorchLoad f (map_location api))) →
  Forall P (trace (net_checkpoint api np inf)).
Proof. intros Hp Hl. unfold net_checkpoint. trace_forall; auto. Qed.

(** The events of a run of [net], block by block. *)
Lemma net_events (P : event → Prop) np inf :
  Forall P (trace (net_num_classes np)) →
  (∀ name n, result (net_model_name np) = Ok name →
             result (net_num_classes np) = Ok n →
             Forall P (trace (net_select api np name n))) →
  (∀ a, P (ESwapCoordconv a)) →
  (∀ f, P (EPrint (msg_loading f))) →
  (∀ f, P (ETorchLoad f (map_location api))) →
  Forall P (trace (net api np inf)).
Proof.
  intros Hn Hsel Hs Hp Hl. unfold net.
  apply Forall_trace_bind; [rewrite net_model_name_trace; constructor|].
  intros name Hname. apply Forall_trace_bind; [done|]. intros n Hnc.
  apply Forall_trace_bind; [by apply Hsel|]. intros built _.
  apply Forall_trace_bind; [by apply net_coordconv_events|]. intros model _.
  apply Forall_trace_bind; [by apply net_checkpoint_events|]. intros ck _.
  apply Forall_nil_2.
Qed.

(** A run of [net] that returns, block by block. *)
Lemma net_Ok_inv np inf t model ck name :
  net api np inf = (t, Ok (model, ck, name)) →
  ∃ n built t_nc t_sel t_cc t_ck,
    net_model_name np = mret name ∧
    net_num_classes np = (t_nc, Ok n) ∧
    net_select api np name n = (t_sel, Ok built) ∧
    net_coordconv api np built = (t_cc, Ok model) ∧
    net_checkpoint api np inf = (t_ck, Ok ck) ∧
    t = t_nc ++ t_sel ++ t_cc ++ t_ck.
Proof.
  unfold net.
  intros (t0 & name' & t' & H0 & H & ->)%bind_Ok_inv.
  apply bind_Ok_inv in H as (t_nc & n & t'' & Hnc & H & ->).
  apply bind_Ok_inv in H as (t_sel & built & t3 & Hsel & H & ->).
  apply bind_Ok_inv in H as (t_cc & model' & t4 & Hcc & H & ->).
  apply bind_Ok_inv in H as (t_ck & ck' & t5 & Hck & H & ->).
  injection H as <- <- <- <-.
  destruct (net_model_name_Ok_inv _ _ _ H0) as [-> _].
  exists n, built, t_nc, t_sel, t_cc, t_ck.
  rewrite app_nil_r. simpl. done.
Qed.

(** [net] once the model name and the class count have been read. *)
Lemma net_header np inf s nc :
  cfg np "global" "model_name" = mret (PStr s) →
  cfg np "global" "num_classes" = mret nc →
  let n := if py_eq_int nc 1 then PInt 2 else nc in
  trace (net api np inf)
    = (if py_eq_int nc 1 then [EWarn msg_one_class] else [])
      ++ trace (net_rest api np inf (lower s) n) ∧
  result (net api np inf) = result (net_rest api np inf (lower s) n).
Proof.
  intros Hs Hnc. unfold net.
  rewrite (bind_pure _ _ _ (net_model_name_lookup _ _ Hs)).
  rewrite (net_num_classes_lookup _ _ Hnc).
  destruct (py_eq_int nc 1).
  - by rewrite (bind_Ok _ _ _ _ eq_refl).
  - by rewrite (bind_pure _ _ _ eq_refl).
Qed.

Lemma net_rest_Raise np inf name n t e :
  net_select api np name n = (t, Raise e) →
  net_rest api np inf name n = (t, Raise e).
Proof. intros H. unfold net_rest. by rewrite (bind_Raise _ _ _ _ H). Qed.

Lemma net_rest_prefix np inf name n :
  ∃ rest, trace (net_rest api np inf name n)
          = trace (net_select api np name n) ++ rest.
Proof.
  unfold net_rest. rewrite trace_bind. destruct (result _); [by eexists|].
  exists []. by rewrite app_nil_r.
Qed.

Lemma bind_ext {A B} (f g : A → py B) (c : py A) :
  (∀ a, f a = g a) → c ≫= f = c ≫= g.
Proof. intros H. rewrite !bind_unfold. destruct c as [t [a|e]]; by rewrite ?H. Qed.

Ltac inv_bind H :=
  let t1 := fresh "t" in let a := fresh "a" in let t2 := fresh "t" in
  let H1 := fresh "H" in
  apply bind_Ok_inv in H as (t1 & a & t2 & H1 & H & ->).

Lemma call_construct_Ok_inv c t m :
  call_construct api c = (t, Ok m) → t = [EConstruct c] ∧ construct api c = Ok m.
Proof. unfold call_construct, lift. by intros [= <- ->]. Qed.

Lemma py_assert_Ok_inv b msg t u :
  py_assert b msg = (t, Ok u) → t = [] ∧ b = true.
Proof. destruct b; [by intros [= <- _] | discriminate]. Qed.

(** A run of [net_select] that returns has built a network of the variant of
    the name, with the class count it was given. *)
Lemma net_select_Ok_inv np name n t built :
  net_select api np name n = (t, Ok built) →
  ∃ v c m0,
    variant_of_name name = Some v ∧ ctor_variant c = v ∧
    is_pretrained c = false ∧ ctor_num_classes c = n ∧
    construct api c = Ok m0 ∧ EConstruct c ∈ t ∧ evolves api m0 built.
Proof.
  destruct (variant_of_name name) as [v|] eqn:Hv;
    [|rewrite (net_select_unknown _ _ _ Hv); discriminate].
  apply variant_of_name_inv in Hv as ->. intros H. exists v.
  destruct v; unfold net_select in H;
    cbn [variant_name String.eqb Ascii.eqb Bool.eqb] in H;
    repeat (inv_bind H);
    repeat match goal with
    | H : cfg _ _ _ = (_, Ok _) |- _ => apply cfg_Ok_inv in H as [-> _]
    | H : py_assert _ _ = (_, Ok _) |- _ => apply py_assert_Ok_inv in H as [-> _]
    | H : call_construct _ _ = (_, Ok _) |- _ =>
        apply call_construct_Ok_inv in H as [-> H]
    end.
  1-5: match goal with H : construct api ?c = Ok ?m |- _ => exists c, m end;
       repeat (split; [done|]); split; [apply list_elem_of_here | constructor].
  all: unfold call_load_state_dict, lift in H; injection H as <- H;
       match goal with
       | H : construct api (?f false ?p ?k ?a) = Ok ?m |- _ => exists (f false p k a), m
       end;
       repeat (split; [done|]);
       (split; [simpl; apply list_elem_of_further, list_elem_of_here|]);
       eapply evolves_load; [constructor | eassumption].
Qed.


Lemma net_coordconv_Ok_inv np built t model :
  net_coordconv api np built = (t, Ok model) →
  ∃ g, getitem np "global" = mret g ∧
       if truthy (get_key_def "coordconv_convert" g (PBool false))
       then swap_coordconv_layers api built (coordconv_args_of g) = Ok model ∧
            t = [ESwapCoordconv (coordconv_args_of g)]
       else model = built ∧ t = [].
Proof.
  unfold net_coordconv. intros H. inv_bind H.
  destruct (getitem_Ok_inv _ _ _ _ H0) as [-> _]. exists a. split; [done|].
  destruct (truthy _); [|by injection H as <- <-].
  rewrite !(bind_pure _ _ _ H0) in H.
  unfold call_swap_coordconv_layers, lift in H. injection H as <- H.
  split; [exact H | reflexivity].
Qed.

Lemma net_checkpoint_Ok_inv np inf t ck :
  net_checkpoint api np inf = (t, Ok ck) →
  ∃ p, cfg np "training" "state_dict_path" = mret p ∧
       if truthy p then load_checkpoint api p = (t, Ok ck)
       else if inf
            then ∃ q, cfg np "inference" "state_dict_path" = mret q ∧
                      load_checkpoint api q = (t, Ok ck)
            else ck = PNone ∧ t = [].
Proof.
  unfold net_checkpoint. intros H. inv_bind H.
  destruct (cfg_Ok_inv _ _ _ _ _ H0) as [-> _]. exists a. split; [done|].
  rewrite app_nil_l. destruct (truthy a).
  - by rewrite (bind_pure _ _ _ H0) in H.
  - destruct inf; [|by injection H as <- <-].
    inv_bind H. destruct (cfg_Ok_inv _ _ _ _ _ H1) as [-> _]. by exists a0.
Qed.

Lemma net_checkpoint_training np inf p :
  cfg np "training" "state_dict_path" = mret p → truthy p = true →
  net_checkpoint api np inf = load_checkpoint api p.
Proof.
  intros Hp Ht. unfold net_checkpoint.
  by rewrite (bind_pure _ _ _ Hp), Ht, (bind_pure _ _ _ Hp).
Qed.

Lemma net_checkpoint_ext np inf inf' :
  net_checkpoint api np inf = net_checkpoint api np inf' →
  net api np inf = net api np inf'.
Proof.
  intros H. unfold net. repeat (apply bind_ext; intros ?). by rewrite H.
Qed.

Lemma net_model_Ok np inf t model ck name :
  net api np inf = (t, Ok (model, ck, name)) →
  ∃ t1 t2, net_model api np = (t1, Ok (model, name)) ∧
           net_checkpoint api np inf = (t2, Ok ck) ∧ t = t1 ++ t2.
Proof.
  intros (n & built & t_nc & t_sel & t_cc & t_ck & H0 & H1 & H2 & H3 & H4 & ->)%net_Ok_inv.
  exists (t_nc ++ t_sel ++ t_cc), t_ck. split; [|split; [done|by rewrite !app_assoc]].
  unfold net_model. rewrite (bind_pure _ _ _ H0), (bind_Ok _ _ _ _ H1).
  rewrite (bind_Ok _ _ _ _ H2), (bind_Ok _ _ _ _ H3). simpl.
  by rewrite app_nil_r.
Qed.


End Blocks.

(** ** Runs that return *)

Section Returns.

Context {module : Type} (api : torch_api module).

Lemma result_bind {A B} (f : A → py B) (c : py A) :
  result (c ≫= f) =
  match result c with Ok a => result (f a) | Raise e => Raise e end.
Proof. rewrite bind_unfold. by destruct c as [t [a|e]]. Qed.

Lemma run_of_result {A} (c : py A) (a : A) :
  result c = Ok a → ∃ t, c = (t, Ok a).
Proof. destruct c as [t r]. simpl. intros ->. by exists t. Qed.

(** Under its preconditions the branch of a variant reaches the constructor
    of the variant, before any other event. *)
Lemma net_select_reaches np v n :
  selectable np v →
  ∃ first t, ctor_variant first = v ∧
             trace (net_select api np (variant_name v) n) = EConstruct first :: t.
Proof.
  intros (b & Hb & Hband & Hdrop).
  destruct v; unfold net_select;
    cbn [variant_name String.eqb Ascii.eqb Bool.eqb];
    rewrite (bind_pure _ _ _ Hb);
    try (destruct (Hdrop eq_refl) as (d & dp & Hd & Hdp);
         rewrite (bind_pure _ _ _ Hd), (bind_pure _ _ _ Hdp));
    try (rewrite (Hband eq_refl), (bind_pure _ (py_assert true _) tt eq_refl));
    rewrite ?trace_bind; unfold call_construct, lift; cbn [trace result fst snd];
    try (destruct (construct api _));
    (eexists _, _; split; [|reflexivity]; reflexivity).
Qed.

(** Under its preconditions, and when the libraries do not fail, the branch
    of a variant returns a model. *)
Lemma net_select_returns np v n :
  selectable np v → libraries_succeed api →
  ∃ built, result (net_select api np (variant_name v) n) = Ok built.
Proof.
  intros (b & Hb & Hband & Hdrop) (Hc & Hl & _).
  assert (Hcall : ∀ c, ∃ m, result (call_construct api c) = Ok m)
    by (intros c; destruct (Hc c) as [m Hm]; by exists m).
  assert (Hload : ∀ m d st, ∃ m', result (call_load_state_dict api m d st) = Ok m')
    by (intros m d st; destruct (Hl m d st) as [m' Hm']; by exists m').
  destruct v; unfold net_select;
    cbn [variant_name String.eqb Ascii.eqb Bool.eqb];
    rewrite (bind_pure _ _ _ Hb);
    try (destruct (Hdrop eq_refl) as (d & dp & Hd & Hdp);
         rewrite (bind_pure _ _ _ Hd), (bind_pure _ _ _ Hdp));
    try (rewrite (Hband eq_refl), (bind_pure _ (py_assert true _) tt eq_refl));
    try apply Hcall.
  all: rewrite result_bind;
       match goal with |- context [call_construct api ?c] =>
         destruct (Hcall c) as [coco ->] end;
       rewrite result_bind;
       match goal with |- context [result (call_construct api ?c)] =>
         destruct (Hcall c) as [fresh ->] end;
       apply Hload.
Qed.

Lemma net_coordconv_returns np g built :
  getitem np "global" = mret g → libraries_succeed api →
  ∃ model, result (net_coordconv api np built) = Ok model.
Proof.
  intros Hg (_ & _ & Hs). unfold net_coordconv. rewrite (bind_pure _ _ _ Hg).
  destruct (truthy _); [|by eexists].
  rewrite !(bind_pure _ _ _ Hg). unfold call_swap_coordconv_layers, lift. simpl.
  apply Hs.
Qed.

(** [net] returns when the name is supported, the configuration holds what
    the variant reads, the libraries do not fail and the checkpoint part
    returns. *)
Lemma net_returns np inf s v nc t_ck ck :
  cfg np "global" "model_name" = mret (PStr s) →
  variant_of_name (lower s) = Some v →
  cfg np "global" "num_classes" = mret nc →
  selectable np v → libraries_succeed api →
  net_checkpoint api np inf = (t_ck, Ok ck) →
  ∃ t model, net api np inf = (t, Ok (model, ck, lower s)).
Proof.
  intros Hs Hv Hnc Hsel Hlib Hck.
  enough (∃ model, result (net api np inf) = Ok (model, ck, lower s)) as [model H].
  { destruct (run_of_result _ _ H) as [t Ht]. by exists t, model. }
  destruct (net_header api np inf s nc Hs Hnc) as [_ ->].
  apply variant_of_name_inv in Hv. rewrite Hv. unfold net_rest.
  destruct (net_select_returns np v (if py_eq_int nc 1 then PInt 2 else nc) Hsel Hlib)
    as [built Hbuilt].
  rewrite result_bind, Hbuilt.
  destruct (cfg_Ok_inv _ _ _ _ _ Hs) as (_ & top & g & -> & Hg & _).
  destruct (net_coordconv_returns (PDict top) (PDict g) built) as [model Hmodel];
    [by simpl; rewrite Hg | done |].
  rewrite result_bind, Hmodel, result_bind, Hck. simpl. by exists model.
Qed.

(** The model of a run that returns descends from a network built by the
    constructor of the variant of the name, with the class count [net]
    settled on. *)
Lemma net_Ok_built np inf t model ck name :
  net api np inf = (t, Ok (model, ck, name)) →
  ∃ n v c m0,
    result (net_num_classes np) = Ok n ∧ variant_of_name name = Some v ∧
    EConstruct c ∈ t ∧ ctor_variant c = v ∧ is_pretrained c = false ∧
    ctor_num_classes c = n ∧ construct api c = Ok m0 ∧ evolves api m0 model.
Proof.
  intros (n & built & t_nc & t_sel & t_cc & t_ck & H0 & H1 & H2 & H3 & H4 & ->)%net_Ok_inv.
  apply net_select_Ok_inv in H2 as (v & c & m0 & Hv & Hc & Hp & Hn & Hm0 & Hin & Hev).
  exists n, v, c, m0. split; [by rewrite H1|]. split; [done|].
  split; [rewrite !elem_of_app; auto|]. do 4 (split; [done|]).
  apply net_coordconv_Ok_inv in H3 as (g & _ & Hg).
  destruct (truthy _).
  - destruct Hg as [Hswap _]. by eapply evolves_swap.
  - by destruct Hg as [-> _].
Qed.

End Returns.

(** ** Properties of [load_checkpoint] *)

Section LoadCheckpointProps.

Context {module : Type} (api : torch_api module).

(** C2: when the deserialized checkpoint is a mapping without a ['model']
    key, [load_checkpoint] returns a mapping whose only entry puts the whole
    deserialized mapping under ['model']; when the mapping has a ['model']
    key, it is returned as it is. *)
Theorem load_checkpoint_wraps_model (filename : pyval) (items : gmap string pyval) :
  deserialized api filename = Ok (PDict items) →
  (items !! "model"%string = None →
     ∃ wrapped : gmap string pyval,
       result (load_checkpoint api filename) = Ok (PDict wrapped) ∧
       wrapped !! "model"%string = Some (PDict items) ∧
       dom wrapped = {[ "model"%string ]}) ∧
  (is_Some (items !! "model"%string) →
     result (load_checkpoint api filename) = Ok (PDict items)).
Proof.
  intros Hd. rewrite load_checkpoint_unfold, Hd. simpl. split.
  - intros Hnone. exists {[ "model"%string := PDict items ]}.
    rewrite bool_decide_eq_false_2 by (rewrite Hnone; by intros [? ?]).
    split; [done|]. split; [apply lookup_singleton_eq | apply dom_singleton_L].
  - intros Hsome. by rewrite bool_decide_eq_true_2.
Qed.

(** C7 (amended): for a path [p], [load_checkpoint] raises its
    "No model found" [FileNotFoundError] exactly when [torch.load] raises a
    [FileNotFoundError]; it does so when nothing is at [p].  A path that
    names a directory, or that goes through a regular file, does not resolve
    to a file either, but there [torch.load] raises [IsADirectoryError] or
    [NotADirectoryError], and these, like every exception that is no
    [FileNotFoundError], reach the caller as they were raised.  [torch.load]
    is called once. *)
Theorem load_checkpoint_not_found (p : string) :
  (result (load_checkpoint api (PStr p))
     = Raise (Exn FileNotFoundError (msg_no_model_found (PStr p)))
   ↔ ∃ e0, deserialized api (PStr p) = Raise e0 ∧ is_FileNotFoundError e0 = true) ∧
  (path_kind_of api p = NoSuchPath →
     result (load_checkpoint api (PStr p))
     = Raise (Exn FileNotFoundError (msg_no_model_found (PStr p)))) ∧
  (path_kind_of api p = Directory →
     result (load_checkpoint api (PStr p))
     = Raise (Exn (OtherError "IsADirectoryError")
                  [Lit "[Errno 21] Is a directory: "; Val (PStr p)])) ∧
  (path_kind_of api p = UnderRegularFile →
     result (load_checkpoint api (PStr p))
     = Raise (Exn (OtherError "NotADirectoryError")
                  [Lit "[Errno 20] Not a directory: "; Val (PStr p)])) ∧
  (∀ e, deserialized api (PStr p) = Raise e → is_FileNotFoundError e = false →
        result (load_checkpoint api (PStr p)) = Raise e) ∧
  trace (load_checkpoint api (PStr p))
    = [EPrint (msg_loading (PStr p)); ETorchLoad (PStr p) (map_location api)].
Proof.
  rewrite load_checkpoint_unfold. simpl.
  split; [|split; [|split; [|split; [|split; [|done]]]]].
  - destruct (deserialized api (PStr p)) as [v|e0] eqn:Hd.
    + split; [|by intros (e0 & [=] & _)].
      destruct v; try discriminate. by case_bool_decide.
    + destruct (is_FileNotFoundError e0) eqn:E.
      * split; [by exists e0|done].
      * split; [|intros (e1 & [= <-] & E1); congruence].
        intros [= ->]. discriminate.
  - intros Hk. unfold deserialized, torch_load, lift. simpl. by rewrite Hk.
  - intros Hk. unfold deserialized, torch_load, lift. simpl. by rewrite Hk.
  - intros Hk. unfold deserialized, torch_load, lift. simpl. by rewrite Hk.
  - by intros e -> ->.
Qed.

End LoadCheckpointProps.

(** ** Properties of [net] *)

Section NetProps.

Context {module : Type} (api : torch_api module).


(** C5: for a variant that needs three bands (ternausnet, fcn_resnet101,
    deeplabv3_resnet101), a band count different from 3 makes [net] fail
    with the "Requires 3 band data" assertion error and no constructor is
    called at all; with a band count equal to 3 the assertion passes and the
    run reaches the constructor of the variant. *)
Theorem net_band_check (np : pyval) (inf : bool) (s : string) (v : variant)
    (nc b : pyval) :
  cfg np "global" "model_name" = mret (PStr s) →
  cfg np "global" "num_classes" = mret nc →
  variant_of_name (lower s) = Some v →
  band_constrained v = true →
  cfg np "global" "number_of_bands" = mret b →
  (py_eq_int b 3 = false →
     result (net api np inf) = Raise (Exn AssertionError msg_bands) ∧
     ∀ c, EConstruct c ∉ trace (net api np inf)) ∧
  (py_eq_int b 3 = true →
     ∃ first t1 t2,
       ctor_variant first = v ∧
       trace (net api np inf) = t1 ++ EConstruct first :: t2 ∧
       Forall (λ ev, is_construct ev = false) t1).
Proof.
  intros Hs Hnc Hv Hbc Hb.
  destruct (net_header api np inf s nc Hs Hnc) as [Ht Hr].
  apply variant_of_name_inv in Hv. rewrite Hv in *.
  set (n := if py_eq_int nc 1 then PInt 2 else nc) in *.
  split; intros H3.
  - pose proof (net_select_bands_mismatch api np v n b Hbc Hb H3) as Hsel.
    rewrite (net_rest_Raise _ _ _ _ _ _ _ Hsel) in Ht, Hr.
    split; [done|]. intros c. rewrite Ht.
    destruct (py_eq_int nc 1); simpl; [|apply not_elem_of_nil].
    rewrite list_elem_of_singleton. discriminate.
  - destruct (net_select_bands_match api np v n b Hbc Hb H3)
      as (first & t & Hfirst & Hsel).
    destruct (net_rest_prefix api np inf (variant_name v) n) as [rest Hrest].
    rewrite Hrest, Hsel in Ht.
    exists first, (if py_eq_int nc 1 then [EWarn msg_one_class] else []), (t ++ rest).
    split; [done|]. split; [by rewrite Ht|].
    destruct (py_eq_int nc 1); by repeat constructor.
Qed.

(** C6: when the lowercased model name is none of the supported names,
    [net] fails with a [ValueError], so no model is returned, and no
    constructor has been called; for a name of ASCII characters (and Kelvin
    signs) the message is the one that names the lowercased name. *)
Theorem net_unknown_model (np : pyval) (inf : bool) (s : string) (nc : pyval) :
  cfg np "global" "model_name" = mret (PStr s) →
  cfg np "global" "num_classes" = mret nc →
  variant_of_name (lower s) = None →
  (∃ m, result (net api np inf) = Raise (Exn ValueError m)) ∧
  (lower_exact s = true →
     result (net api np inf) = Raise (Exn ValueError (msg_not_defined (lower s)))) ∧
  ∀ c, EConstruct c ∉ trace (net api np inf).
Proof.
  intros Hs Hnc Hv.
  destruct (net_header api np inf s nc Hs Hnc) as [Ht Hr].
  pose proof (net_select_unknown api np (lower s)
                (if py_eq_int nc 1 then PInt 2 else nc) Hv) as Hsel.
  rewrite (net_rest_Raise _ _ _ _ _ _ _ Hsel) in Ht, Hr.
  split; [by eexists|]. split; [done|]. intros c. rewrite Ht.
  destruct (py_eq_int nc 1); simpl; [|apply not_elem_of_nil].
  rewrite list_elem_of_singleton. discriminate.
Qed.

(** C8: when the configured model name, lowercased, is the name of variant
    [v], whatever the case it is written in: every constructor [net] calls is
    the one of [v] and no other; when [net] returns, the third component is
    the lowercased name and the model descends from a network built by the
    constructor of [v] for the configuration; when the configuration holds
    what [v] reads, the run does reach the constructor of [v], as its first
    constructor call; and when moreover the libraries do not fail and the
    checkpoint part returns, [net] returns. *)
Theorem net_selects_variant (np : pyval) (inf : bool) (s : string) (v : variant) :
  cfg np "global" "model_name" = mret (PStr s) →
  variant_of_name (lower s) = Some v →
  (∀ c, EConstruct c ∈ trace (net api np inf) → ctor_variant c = v) ∧
  (∀ t model ck name,
     net api np inf = (t, Ok (model, ck, name)) →
     name = lower s ∧
     ∃ c m0, EConstruct c ∈ t ∧ ctor_variant c = v ∧ is_pretrained c = false ∧
             construct api c = Ok m0 ∧ evolves api m0 model) ∧
  (∀ nc,
     cfg np "global" "num_classes" = mret nc → selectable np v →
     (∃ first t1 t2,
        ctor_variant first = v ∧
        trace (net api np inf) = t1 ++ EConstruct first :: t2 ∧
        Forall (λ ev, is_construct ev = false) t1) ∧
     (libraries_succeed api →
      ∀ t_ck ck, net_checkpoint api np inf = (t_ck, Ok ck) →
                 ∃ t model, net api np inf = (t, Ok (model, ck, lower s)))).
Proof.
  intros Hs Hv. pose proof (net_model_name_lookup _ _ Hs) as Hname.
  split; [|split].
  - intros c Hin.
    assert (Forall (λ ev, ∀ c, ev = EConstruct c → ctor_variant c = v)
              (trace (net api np inf))) as HF.
    { apply net_events; try (intros; discriminate).
      - apply net_num_classes_events. discriminate.
      - intros name n Hn _. rewrite Hname in Hn. injection Hn as <-.
        apply net_select_constructs. intros c' Hc' _. congruence. }
    rewrite Forall_forall in HF. by apply (HF _ Hin).
  - intros t model ck name Hnet.
    pose proof Hnet
      as (n & built & t_nc & t_sel & t_cc & t_ck & H0 & _)%net_Ok_inv.
    rewrite Hname in H0. injection H0 as <-. split; [done|].
    apply net_Ok_built in Hnet
      as (n' & v' & c & m0 & _ & Hv' & Hin & Hc & Hp & _ & Hm0 & Hev).
    assert (v' = v) as -> by congruence. by exists c, m0.
  - intros nc Hnc Hsel. split.
    + destruct (net_header api np inf s nc Hs Hnc) as [Ht _].
      pose proof (variant_of_name_inv _ _ Hv) as Hlow. rewrite Hlow in Ht.
      destruct (net_select_reaches api np v (if py_eq_int nc 1 then PInt 2 else nc) Hsel)
        as (first & t & Hfirst & Htr).
      destruct (net_rest_prefix api np inf (variant_name v)
                  (if py_eq_int nc 1 then PInt 2 else nc)) as [rest Hrest].
      rewrite Hrest, Htr in Ht.
      exists first, (if py_eq_int nc 1 then [EWarn msg_one_class] else []), (t ++ rest).
      split; [done|]. split; [by rewrite Ht|].
      destruct (py_eq_int nc 1); by repeat constructor.
    + intros Hlib t_ck ck Hck.
      by apply (net_returns api np inf s v nc t_ck ck).
Qed.


(** C3: with [coordconv_convert] set to true, a run of [net] that returns
    splits into the model part, which ends with the call of
    [swap_coordconv_layers] and contains no [torch.load], and the
    checkpoint part, which comes after it and loads nothing into a model.
    The model returned is the output of the swap, it is what the model part
    alone computes, it is the same for either value of the inference flag,
    and the checkpoint returned is what the checkpoint part resolved. *)
Theorem net_coordconv_before_checkpoint (np : pyval) (inf : bool) (t : list event)
    (model : module) (ck : pyval) (name : string) :
  cfg np "global" "coordconv_convert" = mret (PBool true) →
  net api np inf = (t, Ok (model, ck, name)) →
  ∃ g built t1 t2,
    getitem np "global" = mret g ∧
    t = t1 ++ ESwapCoordconv (coordconv_args_of g) :: t2 ∧
    swap_coordconv_layers api built (coordconv_args_of g) = Ok model ∧
    Forall (λ ev, is_torch_load ev = false) t1 ∧
    net_model api np = (t1 ++ [ESwapCoordconv (coordconv_args_of g)], Ok (model, name)) ∧
    net_checkpoint api np inf = (t2, Ok ck) ∧
    Forall (λ ev, is_load_state_dict ev = false) t2 ∧
    (∀ inf' t' model' ck' name',
       net api np inf' = (t', Ok (model', ck', name')) → model' = model).
Proof.
  intros Hcc Hnet.
  assert (Hindep : ∀ inf' t' model' ck' name',
            net api np inf' = (t', Ok (model', ck', name')) → model' = model).
  { intros inf' t' model' ck' name' Hnet'.
    apply net_model_Ok in Hnet as (t1 & t2 & Hm & _ & _).
    apply net_model_Ok in Hnet' as (t1' & t2' & Hm' & _ & _). congruence. }
  pose proof (net_model_Ok _ _ _ _ _ _ _ Hnet) as (tm & tc & Hm & Hc & Ht).
  apply net_Ok_inv in Hnet
    as (n & built & t_nc & t_sel & t_cc & t_ck & H0 & H1 & H2 & H3 & H4 & ->).
  apply net_coordconv_Ok_inv in H3 as (g & Hg & Hswap).
  apply cfg_Ok_inv in Hcc as (_ & top & gm & -> & Htop & Hkey).
  simpl in Hg. rewrite Htop in Hg. injection Hg as <-.
  simpl in Hswap. rewrite Hkey in Hswap. simpl in Hswap. destruct Hswap as [Hswap ->].
  rewrite H4 in Hc. injection Hc as <-.
  assert (tm = (t_nc ++ t_sel) ++ [ESwapCoordconv (coordconv_args_of (PDict gm))]) as ->.
  { apply (app_inv_tail t_ck). rewrite <- Ht. by rewrite <- !app_assoc. }
  exists (PDict gm), built, (t_nc ++ t_sel), t_ck.
  split; [by simpl; rewrite Htop|]. split; [by rewrite <- !app_assoc|].
  split; [done|]. split.
  { apply Forall_app. split.
    - eapply Forall_trace_run; [exact H1|]. by apply net_num_classes_events.
    - eapply Forall_trace_run; [exact H2|]. by apply net_select_events. }
  split; [done|]. split; [done|]. split; [|done].
  eapply Forall_trace_run; [exact H4|]. by apply net_checkpoint_events.
Qed.

(** C1: when [net] returns, the checkpoint it returns is resolved in this
    order: a truthy training [state_dict_path] is the path it was loaded
    from, and then the run is the same for either value of the inference
    flag; otherwise, with the flag set, it was loaded from the inference
    [state_dict_path]; otherwise it is [None]. *)
Theorem net_checkpoint_precedence (np : pyval) (inf : bool) (t : list event)
    (model : module) (ck : pyval) (name : string) :
  net api np inf = (t, Ok (model, ck, name)) →
  ∃ p, cfg np "training" "state_dict_path" = mret p ∧
       if truthy p
       then result (load_checkpoint api p) = Ok ck ∧
            net api np (negb inf) = net api np inf
       else if inf
            then ∃ q, cfg np "inference" "state_dict_path" = mret q ∧
                      result (load_checkpoint api q) = Ok ck
            else ck = PNone.
Proof.
  intros (n & built & t_nc & t_sel & t_cc & t_ck & H0 & H1 & H2 & H3 & H4 & ->)%net_Ok_inv.
  apply net_checkpoint_Ok_inv in H4 as (p & Hp & H4).
  exists p. split; [done|]. destruct (truthy p) eqn:Htp.
  - split; [by rewrite H4|]. apply net_checkpoint_ext.
    by rewrite !(net_checkpoint_training _ _ _ p).
  - destruct inf; [|by destruct H4].
    destruct H4 as (q & Hq & H4). exists q. by rewrite H4.
Qed.


End NetProps.

(** ** Further properties of [load_checkpoint] *)

Section LoadCheckpointMore.

Context {module : Type} (api : torch_api module).

Lemma load_checkpoint_Ok_inv filename t ck :
  load_checkpoint api filename = (t, Ok ck) →
  ∃ items : gmap string pyval,
    deserialized api filename = Ok (PDict items) ∧
    ck = (if bool_decide (is_Some (items !! "model"%string))
          then PDict items else PDict {[ "model"%string := PDict items ]}).
Proof.
  rewrite load_checkpoint_unfold. intros [= _ H].
  destruct (deserialized api filename) as [v|e].
  - destruct v; try discriminate. exists d. split; [done|].
    case_bool_decide; by injection H.
  - by destruct (is_FileNotFoundError e).
Qed.

(** X1: whatever the file name and whatever the outcome, [load_checkpoint]
    prints its message and then calls [torch.load] once, without
    [map_location] when CUDA is available and with ['cpu'] otherwise. *)
Theorem load_checkpoint_events (filename : pyval) :
  trace (load_checkpoint api filename)
  = [EPrint (msg_loading filename);
     ETorchLoad filename (if cuda_is_available api then None else Some "cpu"%string)].
Proof. by rewrite load_checkpoint_unfold. Qed.

(** X2: a checkpoint that [load_checkpoint] returns is always a mapping with
    a ['model'] entry. *)
Theorem load_checkpoint_has_model (filename : pyval) (t : list event) (ck : pyval) :
  load_checkpoint api filename = (t, Ok ck) →
  ∃ (d : gmap string pyval) (m : pyval), ck = PDict d ∧ d !! "model"%string = Some m.
Proof.
  intros (items & _ & ->)%load_checkpoint_Ok_inv. case_bool_decide as Hm.
  - destruct Hm as [m Hm]. by exists items, m.
  - eexists _, _. split; [done|]. apply lookup_singleton_eq.
Qed.

(** X3: the ways [load_checkpoint] fails: [torch.load] raised a
    [FileNotFoundError], which is replaced by the "No model found" one;
    [torch.load] raised anything else, which is passed on; or [torch.load]
    returned something that is no mapping, and asking for its keys raises
    [AttributeError]. *)
Theorem load_checkpoint_failures (filename : pyval) (e : exn) :
  result (load_checkpoint api filename) = Raise e →
  (∃ e0, deserialized api filename = Raise e0 ∧ is_FileNotFoundError e0 = true ∧
         e = Exn FileNotFoundError (msg_no_model_found filename)) ∨
  (deserialized api filename = Raise e ∧ is_FileNotFoundError e = false) ∨
  (∃ v, deserialized api filename = Ok v ∧ (∀ d, v ≠ PDict d) ∧
        e = Exn AttributeError [Val v; Lit "keys"]).
Proof.
  rewrite load_checkpoint_unfold. simpl.
  destruct (deserialized api filename) as [v|e0].
  - intros H. right. right. exists v. split; [done|].
    destruct v; try (injection H as <-; split; [discriminate|done]).
    by case_bool_decide.
  - destruct (is_FileNotFoundError e0) eqn:E; intros [= <-]; eauto.
Qed.

(** X4: a [FileNotFoundError] that leaves [load_checkpoint] always carries
    the "No model found at <filename>" message, also when it was raised while
    an existing file was being deserialized. *)
Theorem load_checkpoint_not_found_message (filename : pyval) (e : exn) :
  result (load_checkpoint api filename) = Raise e →
  is_FileNotFoundError e = true →
  e = Exn FileNotFoundError (msg_no_model_found filename).
Proof.
  rewrite load_checkpoint_unfold. simpl.
  destruct (deserialized api filename) as [v|e0].
  - destruct v; try (intros [= <-]; discriminate). by case_bool_decide.
  - destruct (is_FileNotFoundError e0) eqn:E; intros [= <-]; [done|].
    intros E'. congruence.
Qed.

End LoadCheckpointMore.

(** ** Further properties of [net] *)

Lemma bind_assoc {A B C} (c : py A) (f : A → py B) (g : B → py C) :
  (c ≫= f) ≫= g = c ≫= (λ a, f a ≫= g).
Proof.
  destruct c as [t [a|e]]; [|by rewrite !bind_unfold].
  rewrite (bind_unfold f), (bind_unfold (λ a, f a ≫= g)).
  destruct (f a) as [t1 [b|e]] eqn:Hf; rewrite !bind_unfold; simpl.
  - by rewrite app_assoc.
  - done.
Qed.

Lemma getitem_pure d k : ∃ r, getitem d k = ([], r).
Proof. exists (result (getitem d k)). rewrite <- (getitem_trace d k). by destruct (getitem d k). Qed.

Lemma cfg_pure np s k : ∃ r, cfg np s k = ([], r).
Proof. exists (result (cfg np s k)). rewrite <- (cfg_trace np s k). by destruct (cfg np s k). Qed.

Section NetMore.

Context {module : Type} (api : torch_api module).

(** [net] is its model part followed by its checkpoint part. *)
Lemma net_split np inf :
  net api np inf = with_checkpoint (net_model api np) (net_checkpoint api np inf).
Proof.
  unfold net, with_checkpoint, net_model.
  do 4 (rewrite bind_assoc; apply bind_ext; intros ?).
  by rewrite (bind_pure _ _ _ eq_refl).
Qed.

Lemma net_model_events (P : event → Prop) np :
  P (EWarn msg_one_class) → (∀ c, P (EConstruct c)) →
  (∀ d, P (ELoadStateDict d false)) → (∀ a, P (ESwapCoordconv a)) →
  Forall P (trace (net_model api np)).
Proof.
  intros Hw Hc Hl Hs. unfold net_model.
  apply Forall_trace_bind; [rewrite net_model_name_trace; constructor|]. intros name _.
  apply Forall_trace_bind; [by apply net_num_classes_events|]. intros n _.
  apply Forall_trace_bind; [by apply net_select_events|]. intros built _.
  apply Forall_trace_bind; [by apply net_coordconv_events|]. intros model _.
  apply Forall_nil_2.
Qed.

Lemma net_checkpoint_trace_cases np inf :
  trace (net_checkpoint api np inf) = [] ∨
  ∃ f, trace (net_checkpoint api np inf)
       = [EPrint (msg_loading f); ETorchLoad f (map_location api)].
Proof.
  unfold net_checkpoint.
  destruct (cfg_pure np "training" "state_dict_path") as [[p|e] Hp];
    [|left; by rewrite (bind_Raise _ _ _ _ Hp)].
  rewrite (bind_pure _ _ _ Hp). destruct (truthy p).
  { rewrite (bind_pure _ _ _ Hp). right. exists p. by rewrite load_checkpoint_unfold. }
  destruct inf; [|by left].
  destruct (cfg_pure np "inference" "state_dict_path") as [[q|e] Hq];
    [|left; by rewrite (bind_Raise _ _ _ _ Hq)].
  rewrite (bind_pure _ _ _ Hq). right. exists q. by rewrite load_checkpoint_unfold.
Qed.

Lemma net_num_classes_trace_cases np :
  trace (net_num_classes np) = [] ∨ trace (net_num_classes np) = [EWarn msg_one_class].
Proof.
  unfold net_num_classes.
  destruct (cfg_pure np "global" "num_classes") as [[nc|e] Hnc];
    [|left; by rewrite (bind_Raise _ _ _ _ Hnc)].
  rewrite (bind_pure _ _ _ Hnc). destruct (py_eq_int nc 1); [by right | by left].
Qed.

Lemma net_coordconv_trace_cases np model :
  trace (net_coordconv api np model) = [] ∨
  ∃ a, trace (net_coordconv api np model) = [ESwapCoordconv a].
Proof.
  unfold net_coordconv.
  destruct (getitem_pure np "global") as [[g|e] Hg];
    [|left; by rewrite (bind_Raise _ _ _ _ Hg)].
  rewrite (bind_pure _ _ _ Hg). destruct (truthy _); [|by left].
  rewrite !(bind_pure _ _ _ Hg). right. by eexists.
Qed.

(** X5: when the ['global'] section has a model name but no
    ['num_classes'], [net] fails with [KeyError('num_classes')] before it
    looks at the model name: nothing is printed or built, and an unsupported
    name is not reported. *)
Theorem net_missing_num_classes (top g : gmap string pyval) (s : string) (inf : bool) :
  top !! "global"%string = Some (PDict g) →
  g !! "model_name"%string = Some (PStr s) →
  g !! "num_classes"%string = None →
  net api (PDict top) inf = ([], Raise (Exn KeyError [Val (PStr "num_classes")])).
Proof.
  intros Hg Hs Hn. unfold net.
  rewrite (bind_pure _ _ (lower s)).
  - unfold net_num_classes, cfg. simpl. rewrite Hg. simpl. by rewrite Hn.
  - unfold net_model_name, cfg. simpl. rewrite Hg. simpl. by rewrite Hs.
Qed.

(** X6: a model name that is not a string makes [net] fail with the
    [AttributeError] of the missing [lower] method, before anything else is
    read or done. *)
Theorem net_model_name_not_str (top g : gmap string pyval) (v : pyval) (inf : bool) :
  top !! "global"%string = Some (PDict g) →
  g !! "model_name"%string = Some v →
  (∀ s, v ≠ PStr s) →
  net api (PDict top) inf = ([], Raise (Exn AttributeError [Val v; Lit "lower"])).
Proof.
  intros Hg Hv Hs. unfold net, net_model_name, cfg. simpl. rewrite Hg. simpl.
  rewrite Hv. simpl. destruct v; try reflexivity. by destruct (Hs s).
Qed.

(** X7: only the U-Net constructors take the dropout settings.  For every
    other model name, supported or not, the selection of the model reads
    nothing but the ['global'] section: two configurations with the same
    ['global'] section give the same run. *)
Theorem net_select_global_only (np np' : pyval) (name : string) (n : pyval) :
  getitem np "global" = getitem np' "global" →
  (∀ v, variant_of_name name = Some v → reads_dropout v = false) →
  net_select api np name n = net_select api np' name n.
Proof.
  intros Hg Hv. destruct (variant_of_name name) as [v|] eqn:Hname.
  - specialize (Hv v eq_refl). apply variant_of_name_inv in Hname as ->.
    destruct v; try discriminate; unfold net_select, cfg;
      cbn [variant_name String.eqb Ascii.eqb Bool.eqb]; by rewrite Hg.
  - by rewrite !net_select_unknown.
Qed.

(** X8: without a truthy [coordconv_convert], [net] never calls
    [swap_coordconv_layers], and the model it returns is the one the
    selection built. *)
Theorem net_without_coordconv (np g : pyval) (inf : bool) :
  getitem np "global" = mret g →
  truthy (get_key_def "coordconv_convert" g (PBool false)) = false →
  (∀ a, ESwapCoordconv a ∉ trace (net api np inf)) ∧
  (∀ t model ck name,
     net api np inf = (t, Ok (model, ck, name)) →
     ∃ n t', result (net_num_classes np) = Ok n ∧
             net_select api np name n = (t', Ok model)).
Proof.
  intros Hg Hcc.
  assert (Hnone : ∀ model, net_coordconv api np model = mret model).
  { intros model. unfold net_coordconv. by rewrite (bind_pure _ _ _ Hg), Hcc. }
  split.
  - intros a Hin.
    assert (Forall (λ ev, is_swap ev = false) (trace (net api np inf))) as HF.
    { unfold net.
      apply Forall_trace_bind; [rewrite net_model_name_trace; constructor|]. intros name _.
      apply Forall_trace_bind; [by apply net_num_classes_events|]. intros n _.
      apply Forall_trace_bind; [by apply net_select_events|]. intros built _.
      apply Forall_trace_bind; [rewrite Hnone; constructor|]. intros model _.
      apply Forall_trace_bind; [by apply net_checkpoint_events|]. intros ck _.
      apply Forall_nil_2. }
    rewrite Forall_forall in HF. by specialize (HF _ Hin).
  - intros t model ck name
      (n & built & t_nc & t_sel & t_cc & t_ck & H0 & H1 & H2 & H3 & H4 & ->)%net_Ok_inv.
    rewrite Hnone in H3. injection H3 as <- <-.
    exists n, t_sel. by rewrite H1.
Qed.

(** X9: when the model part fails, [net] fails in the same way and the
    checkpoint part does not run: no message is printed and [torch.load] is
    not called. *)
Theorem net_model_failure (np : pyval) (inf : bool) (t : list event) (e : exn) :
  net_model api np = (t, Raise e) →
  net api np inf = (t, Raise e) ∧
  Forall (λ ev, is_print ev = false ∧ is_torch_load ev = false) t.
Proof.
  intros H. split.
  - rewrite net_split. unfold with_checkpoint. by rewrite (bind_Raise _ _ _ _ H).
  - eapply Forall_trace_run; [exact H|]. by apply net_model_events.
Qed.

(** X10: there is no fallback.  When the training [state_dict_path] is
    truthy and loading it fails, [net] fails with that exception, also with
    the inference flag set, and the only file it tried is the training
    one. *)
Theorem net_no_fallback (np : pyval) (inf : bool) (p : pyval) (e : exn)
    (t : list event) (mn : module * string) :
  cfg np "training" "state_dict_path" = mret p →
  truthy p = true →
  result (load_checkpoint api p) = Raise e →
  net_model api np = (t, Ok mn) →
  result (net api np inf) = Raise e ∧
  filter (λ ev, is_torch_load ev = true) (trace (net api np inf))
  = [ETorchLoad p (map_location api)].
Proof.
  intros Hp Htp He Hm.
  rewrite net_split. unfold with_checkpoint.
  rewrite (bind_Ok _ _ _ _ Hm), (net_checkpoint_training api np inf p Hp Htp).
  rewrite load_checkpoint_unfold in He |- *. simpl in He.
  rewrite bind_unfold. simpl. rewrite He. split; [done|].
  rewrite filter_app, filter_none; [done|].
  assert (Forall (λ ev, is_torch_load ev = false) t) as HF.
  { eapply Forall_trace_run; [exact Hm|]. by apply net_model_events. }
  eapply Forall_impl; [exact HF|]. simpl. intros ev ->. discriminate.
Qed.

(** X11: the ['inference'] section is read only when it is needed.  Without
    the inference flag, or with a truthy training [state_dict_path], two
    configurations that differ in the ['inference'] entry alone give the same
    run. *)
Theorem net_inference_section_unread (top top' : gmap string pyval) (inf : bool) :
  (∀ k, k ≠ "inference"%string → top !! k = top' !! k) →
  (inf = false ∨
   ∃ p, cfg (PDict top) "training" "state_dict_path" = mret p ∧ truthy p = true) →
  net api (PDict top) inf = net api (PDict top') inf.
Proof.
  intros Hagree Hinf.
  assert (Hg : getitem (PDict top) "global" = getitem (PDict top') "global")
    by (simpl; by rewrite Hagree).
  assert (Ht : getitem (PDict top) "training" = getitem (PDict top') "training")
    by (simpl; by rewrite Hagree).
  assert (Hc : ∀ k, cfg (PDict top) "training" k = cfg (PDict top') "training" k)
    by (intros k; unfold cfg; by rewrite Ht).
  rewrite !net_split. f_equal.
  - unfold net_model, net_model_name, net_num_classes, net_select, net_coordconv, cfg.
    by rewrite Hg, Ht.
  - destruct Hinf as [->|(p & Hp & Htp)].
    + unfold net_checkpoint. by rewrite !Hc.
    + rewrite (net_checkpoint_training api _ inf p Hp Htp).
      rewrite Hc in Hp. by rewrite (net_checkpoint_training api _ inf p Hp Htp).
Qed.

(** X12: the checkpoint [net] returns is [None] or a mapping with a
    ['model'] entry. *)
Theorem net_checkpoint_shape (np : pyval) (inf : bool) (t : list event)
    (model : module) (ck : pyval) (name : string) :
  net api np inf = (t, Ok (model, ck, name)) →
  ck = PNone ∨
  ∃ (d : gmap string pyval) (m : pyval), ck = PDict d ∧ d !! "model"%string = Some m.
Proof.
  intros (n & built & t_nc & t_sel & t_cc & t_ck & H0 & H1 & H2 & H3 & H4 & ->)%net_Ok_inv.
  apply net_checkpoint_Ok_inv in H4 as (p & _ & H4).
  assert (∀ f, load_checkpoint api f = (t_ck, Ok ck) →
               ∃ (d : gmap string pyval) (m : pyval),
                 ck = PDict d ∧ d !! "model"%string = Some m) as Hload.
  { intros f (items & _ & ->)%load_checkpoint_Ok_inv. case_bool_decide as Hm.
    - destruct Hm as [m Hm]. by exists items, m.
    - eexists _, _. split; [done|]. apply lookup_singleton_eq. }
  destruct (truthy p); [right; by eapply Hload|].
  destruct inf.
  - destruct H4 as (q & _ & H4). right. by eapply Hload.
  - left. by destruct H4.
Qed.

(** X13: every run of [net], returning or failing, goes through its phases
    in order and each at most once: at most the one warning; then only
    constructor calls and state-dict loads; then at most one swap of the
    convolution layers; then at most one checkpoint load, announced by its
    message. *)
Theorem net_phases (np : pyval) (inf : bool) :
  ∃ t1 t2 t3 t4,
    trace (net api np inf) = t1 ++ t2 ++ t3 ++ t4 ∧
    (t1 = [] ∨ t1 = [EWarn msg_one_class]) ∧
    Forall (λ ev, is_construct ev || is_load_state_dict ev = true) t2 ∧
    (t3 = [] ∨ ∃ a, t3 = [ESwapCoordconv a]) ∧
    (t4 = [] ∨ ∃ f, t4 = [EPrint (msg_loading f); ETorchLoad f (map_location api)]).
Proof.
  unfold net. rewrite trace_bind, net_model_name_trace.
  destruct (result (net_model_name np)) as [name|e];
    [|exists [], [], [], []; repeat split; auto].
  rewrite app_nil_l, trace_bind. exists (trace (net_num_classes np)).
  pose proof (net_num_classes_trace_cases np) as H1.
  destruct (result (net_num_classes np)) as [n|e];
    [|exists [], [], []; rewrite !app_nil_r; repeat split; auto].
  rewrite trace_bind. exists (trace (net_select api np name n)).
  assert (Forall (λ ev, is_construct ev || is_load_state_dict ev = true)
            (trace (net_select api np name n))) as H2 by by apply net_select_events.
  destruct (result (net_select api np name n)) as [built|e];
    [|exists [], []; rewrite !app_nil_r; repeat split; auto].
  rewrite trace_bind. exists (trace (net_coordconv api np built)).
  pose proof (net_coordconv_trace_cases np built) as H3.
  destruct (result (net_coordconv api np built)) as [model|e];
    [|exists []; rewrite !app_nil_r; repeat split; auto].
  rewrite trace_bind. exists (trace (net_checkpoint api np inf)).
  pose proof (net_checkpoint_trace_cases np inf) as H4.
  destruct (result (net_checkpoint api np inf)) as [ck|e];
    simpl; rewrite ?app_nil_r; repeat split; auto.
Qed.

(** X14: when the inference flag is set, the training [state_dict_path] is
    falsy and the configuration has no ['inference'] section, [net] fails
    with [KeyError('inference')], and it does so only after the model has
    been built. *)
Theorem net_missing_inference_section (top : gmap string pyval) (p : pyval)
    (t : list event) (mn : module * string) :
  cfg (PDict top) "training" "state_dict_path" = mret p →
  truthy p = false →
  top !! "inference"%string = None →
  net_model api (PDict top) = (t, Ok mn) →
  net api (PDict top) true = (t, Raise (Exn KeyError [Val (PStr "inference")])).
Proof.
  intros Hp Htp Hinf Hm. rewrite net_split. unfold with_checkpoint.
  rewrite (bind_Ok _ _ _ _ Hm).
  assert (net_checkpoint api (PDict top) true
          = ([], Raise (Exn KeyError [Val (PStr "inference")]))) as ->.
  { unfold net_checkpoint. rewrite (bind_pure _ _ _ Hp), Htp.
    unfold cfg. simpl. by rewrite Hinf. }
  simpl. by rewrite app_nil_r.
Qed.

End NetMore.

(** ** The properties at work in the concrete world *)

Lemma load_checkpoint_wraps_model_witness :
  (∃ wrapped : gmap string pyval,
     result (load_checkpoint Demo.api (PStr "external.pth")) = Ok (PDict wrapped) ∧
     wrapped !! "model"%string = Some (PDict Demo.external_ckpt) ∧
     dom wrapped = {[ "model"%string ]}) ∧
  result (load_checkpoint Demo.api (PStr "trained.pth.tar")) = Ok (PDict Demo.trained_ckpt).
Proof.
  split.
  - apply (load_checkpoint_wraps_model Demo.api (PStr "external.pth") Demo.external_ckpt);
      vm_compute; reflexivity.
  - apply (load_checkpoint_wraps_model Demo.api (PStr "trained.pth.tar") Demo.trained_ckpt);
      vm_compute; eauto.
Defined.

Lemma net_checkpoint_precedence_witness :
  (∃ p, cfg (Demo.cfg_unet (PStr "external.pth")) "training" "state_dict_path" = mret p ∧
        if truthy p
        then result (load_checkpoint Demo.api p) = Ok Demo.wrapped_external ∧
             net Demo.api (Demo.cfg_unet (PStr "external.pth")) (negb true)
             = net Demo.api (Demo.cfg_unet (PStr "external.pth")) true
        else if true
             then ∃ q, cfg (Demo.cfg_unet (PStr "external.pth")) "inference" "state_dict_path"
                       = mret q ∧
                       result (load_checkpoint Demo.api q) = Ok Demo.wrapped_external
             else Demo.wrapped_external = PNone) ∧
  (∃ p, cfg (Demo.cfg_unet PNone) "training" "state_dict_path" = mret p ∧
        if truthy p
        then result (load_checkpoint Demo.api p) = Ok (PDict Demo.trained_ckpt) ∧
             net Demo.api (Demo.cfg_unet PNone) (negb true)
             = net Demo.api (Demo.cfg_unet PNone) true
        else if true
             then ∃ q, cfg (Demo.cfg_unet PNone) "inference" "state_dict_path" = mret q ∧
                       result (load_checkpoint Demo.api q) = Ok (PDict Demo.trained_ckpt)
             else PDict Demo.trained_ckpt = PNone) ∧
  (∃ p, cfg (Demo.cfg_unet PNone) "training" "state_dict_path" = mret p ∧
        if truthy p
        then result (load_checkpoint Demo.api p) = Ok PNone ∧
             net Demo.api (Demo.cfg_unet PNone) (negb false)
             = net Demo.api (Demo.cfg_unet PNone) false
        else if false
             then ∃ q, cfg (Demo.cfg_unet PNone) "inference" "state_dict_path" = mret q ∧
                       result (load_checkpoint Demo.api q) = Ok PNone
             else PNone = PNone).
Proof.
  split; [|split].
  - apply (net_checkpoint_precedence Demo.api (Demo.cfg_unet (PStr "external.pth")) true
             Demo.unet_trace_external Demo.unet_model Demo.wrapped_external "unet").
    vm_compute. reflexivity.
  - apply (net_checkpoint_precedence Demo.api (Demo.cfg_unet PNone) true
             Demo.unet_trace_trained Demo.unet_model (PDict Demo.trained_ckpt) "unet").
    vm_compute. reflexivity.
  - apply (net_checkpoint_precedence Demo.api (Demo.cfg_unet PNone) false
             [EWarn msg_one_class; EConstruct Demo.unet_call] Demo.unet_model PNone "unet").
    vm_compute. reflexivity.
Defined.

(** The concrete libraries never fail, and the demo configurations hold what
    their variant reads. *)
Lemma demo_libraries_succeed : libraries_succeed Demo.api.
Proof. split; [|split]; intros; eexists; reflexivity. Qed.

Lemma demo_selectable_unet (train_path : pyval) :
  selectable (Demo.cfg_unet train_path) VUNet.
Proof.
  exists (PInt 4). split; [vm_compute; reflexivity|]. split; [discriminate|].
  intros _. exists (PBool false), PNone. split; vm_compute; reflexivity.
Qed.

Lemma demo_selectable_checkpointed : selectable Demo.cfg_checkpointed VCheckpointedUNet.
Proof.
  exists (PInt 5). split; [vm_compute; reflexivity|]. split; [discriminate|].
  intros _. exists (PBool false), PNone. split; vm_compute; reflexivity.
Qed.

Lemma load_checkpoint_not_found_counterexample :
  ¬ (result (load_checkpoint Demo.api (PStr "checkpoints"))
       = Raise (Exn FileNotFoundError (msg_no_model_found (PStr "checkpoints")))
     ↔ resolves_to_file Demo.api "checkpoints" = false).
Proof. intros [_ H]. specialize (H eq_refl). vm_compute in H. discriminate. Qed.

Lemma load_checkpoint_not_found_witness :
  result (load_checkpoint Demo.api (PStr "missing.pth"))
    = Raise (Exn FileNotFoundError (msg_no_model_found (PStr "missing.pth"))) ∧
  result (load_checkpoint Demo.api (PStr "checkpoints"))
    = Raise (Demo.is_a_directory_error "checkpoints") ∧
  result (load_checkpoint Demo.api (PStr "dangling.pth"))
    = Raise (Exn FileNotFoundError (msg_no_model_found (PStr "dangling.pth"))) ∧
  result (load_checkpoint Demo.api (PStr "broken.pth")) = Raise Demo.unpickling_error.
Proof.
  split; [|split; [|split]].
  - destruct (load_checkpoint_not_found Demo.api "missing.pth") as (_ & Hmissing & _).
    apply Hmissing. vm_compute. reflexivity.
  - destruct (load_checkpoint_not_found Demo.api "checkpoints") as (_ & _ & Hdir & _).
    apply Hdir. vm_compute. reflexivity.
  - destruct (load_checkpoint_not_found Demo.api "dangling.pth") as (Hiff & _).
    apply Hiff. eexists. split; vm_compute; reflexivity.
  - destruct (load_checkpoint_not_found Demo.api "broken.pth")
      as (_ & _ & _ & _ & Hother & _).
    apply Hother; vm_compute; reflexivity.
Defined.


Lemma net_band_check_witness :
  (result (net Demo.api (Demo.cfg_ternausnet (PInt 4)) false)
     = Raise (Exn AssertionError msg_bands) ∧
   ∀ c, EConstruct c ∉ trace (net Demo.api (Demo.cfg_ternausnet (PInt 4)) false)) ∧
  (∃ first t1 t2,
     ctor_variant first = VTernausNet ∧
     trace (net Demo.api (Demo.cfg_ternausnet (PInt 3)) false)
       = t1 ++ EConstruct first :: t2 ∧
     Forall (λ ev, is_construct ev = false) t1).
Proof.
  split.
  - apply (net_band_check Demo.api (Demo.cfg_ternausnet (PInt 4)) false "TernausNet"
             VTernausNet (PInt 2) (PInt 4));
      vm_compute; reflexivity.
  - apply (net_band_check Demo.api (Demo.cfg_ternausnet (PInt 3)) false "TernausNet"
             VTernausNet (PInt 2) (PInt 3));
      vm_compute; reflexivity.
Defined.

Lemma net_unknown_model_witness :
  (∃ m, result (net Demo.api Demo.cfg_resnet false) = Raise (Exn ValueError m)) ∧
  result (net Demo.api Demo.cfg_resnet false)
    = Raise (Exn ValueError (msg_not_defined "resnet50")) ∧
  ∀ c, EConstruct c ∉ trace (net Demo.api Demo.cfg_resnet false).
Proof.
  destruct (net_unknown_model Demo.api Demo.cfg_resnet false "ResNet50" (PInt 2))
    as (H1 & H2 & H3); [vm_compute; reflexivity..|].
  split; [exact H1|]. split; [exact (H2 eq_refl) | exact H3].
Defined.

Lemma net_selects_variant_witness :
  (∀ c, EConstruct c ∈ trace (net Demo.api (Demo.cfg_unet PNone) false) →
        ctor_variant c = VUNet) ∧
  ("unet"%string = lower "UNet" ∧
   ∃ c m0, EConstruct c ∈ [EWarn msg_one_class; EConstruct Demo.unet_call] ∧
           ctor_variant c = VUNet ∧ is_pretrained c = false ∧
           construct Demo.api c = Ok m0 ∧ evolves Demo.api m0 Demo.unet_model) ∧
  (∃ first t1 t2,
     ctor_variant first = VUNet ∧
     trace (net Demo.api (Demo.cfg_unet PNone) false) = t1 ++ EConstruct first :: t2 ∧
     Forall (λ ev, is_construct ev = false) t1) ∧
  (∃ t model,
     net Demo.api (Demo.cfg_unet PNone) false = (t, Ok (model, PNone, lower "UNet"))) ∧
  (∃ t model,
     net Demo.api Demo.cfg_checkpointed false
     = (t, Ok (model, PNone, lower Demo.kelvin_name))) ∧
  lower Demo.kelvin_name = "checkpointed_unet"%string.
Proof.
  destruct (net_selects_variant Demo.api (Demo.cfg_unet PNone) false "UNet" VUNet)
    as (Hall & Hret & Hsel); [vm_compute; reflexivity | vm_compute; reflexivity |].
  destruct (Hsel (PInt 1)) as [Hreach Hreturns];
    [vm_compute; reflexivity | apply demo_selectable_unet |].
  destruct (net_selects_variant Demo.api Demo.cfg_checkpointed false Demo.kelvin_name
              VCheckpointedUNet)
    as (_ & _ & Hsel'); [vm_compute; reflexivity | vm_compute; reflexivity |].
  destruct (Hsel' (PInt 3)) as [_ Hreturns'];
    [vm_compute; reflexivity | apply demo_selectable_checkpointed |].
  split; [exact Hall|]. split.
  { apply (Hret [EWarn msg_one_class; EConstruct Demo.unet_call] Demo.unet_model PNone
                "unet"%string).
    vm_compute. reflexivity. }
  split; [exact Hreach|]. split.
  { apply (Hreturns demo_libraries_succeed [] PNone). vm_compute. reflexivity. }
  split; [|vm_compute; reflexivity].
  apply (Hreturns' demo_libraries_succeed [] PNone). vm_compute. reflexivity.
Defined.


Lemma net_coordconv_before_checkpoint_witness :
  ∃ g built t1 t2,
    getitem Demo.cfg_fcn "global" = mret g ∧
    Demo.fcn_trace = t1 ++ ESwapCoordconv (coordconv_args_of g) :: t2 ∧
    swap_coordconv_layers Demo.api built (coordconv_args_of g) = Ok Demo.fcn_model ∧
    Forall (λ ev, is_torch_load ev = false) t1 ∧
    net_model Demo.api Demo.cfg_fcn
      = (t1 ++ [ESwapCoordconv (coordconv_args_of g)], Ok (Demo.fcn_model, "fcn_resnet101"%string)) ∧
    net_checkpoint Demo.api Demo.cfg_fcn true = (t2, Ok (PDict Demo.trained_ckpt)) ∧
    Forall (λ ev, is_load_state_dict ev = false) t2 ∧
    (∀ inf' t' model' ck' name',
       net Demo.api Demo.cfg_fcn inf' = (t', Ok (model', ck', name')) →
       model' = Demo.fcn_model).
Proof.
  apply (net_coordconv_before_checkpoint Demo.api Demo.cfg_fcn true Demo.fcn_trace
           Demo.fcn_model (PDict Demo.trained_ckpt) "fcn_resnet101");
    vm_compute; reflexivity.
Defined.


Lemma load_checkpoint_has_model_witness :
  ∃ (d : gmap string pyval) (m : pyval),
    Demo.wrapped_external = PDict d ∧ d !! "model"%string = Some m.
Proof.
  apply (load_checkpoint_has_model Demo.api (PStr "external.pth")
           [EPrint (msg_loading (PStr "external.pth"));
            ETorchLoad (PStr "external.pth") Demo.cpu]
           Demo.wrapped_external).
  vm_compute. reflexivity.
Defined.

Lemma load_checkpoint_failures_witness :
  (∃ e0, deserialized Demo.api (PStr "broken.pth") = Raise e0 ∧
         is_FileNotFoundError e0 = true ∧
         Demo.unpickling_error
         = Exn FileNotFoundError (msg_no_model_found (PStr "broken.pth"))) ∨
  (deserialized Demo.api (PStr "broken.pth") = Raise Demo.unpickling_error ∧
   is_FileNotFoundError Demo.unpickling_error = false) ∨
  (∃ v, deserialized Demo.api (PStr "broken.pth") = Ok v ∧ (∀ d, v ≠ PDict d) ∧
        Demo.unpickling_error = Exn AttributeError [Val v; Lit "keys"]).
Proof.
  apply (load_checkpoint_failures Demo.api (PStr "broken.pth") Demo.unpickling_error).
  vm_compute. reflexivity.
Defined.

Lemma load_checkpoint_not_found_message_witness :
  Exn FileNotFoundError (msg_no_model_found (PStr "missing.pth"))
  = Exn FileNotFoundError (msg_no_model_found (PStr "missing.pth")).
Proof.
  apply (load_checkpoint_not_found_message Demo.api (PStr "missing.pth")
           (Exn FileNotFoundError (msg_no_model_found (PStr "missing.pth"))));
    vm_compute; reflexivity.
Defined.

Lemma net_missing_num_classes_witness :
  net Demo.api (PDict {[ "global"%string := PDict Demo.global_no_classes ]}) false
  = ([], Raise (Exn KeyError [Val (PStr "num_classes")])).
Proof.
  apply (net_missing_num_classes Demo.api
           {[ "global"%string := PDict Demo.global_no_classes ]}
           Demo.global_no_classes "ResNet50" false);
    vm_compute; reflexivity.
Defined.

Lemma net_model_name_not_str_witness :
  net Demo.api (PDict {[ "global"%string := PDict Demo.global_numeric_name ]}) true
  = ([], Raise (Exn AttributeError [Val (PInt 7); Lit "lower"])).
Proof.
  apply (net_model_name_not_str Demo.api
           {[ "global"%string := PDict Demo.global_numeric_name ]}
           Demo.global_numeric_name (PInt 7) true);
    [vm_compute; reflexivity | vm_compute; reflexivity | discriminate].
Defined.

Lemma net_select_global_only_witness :
  net_select Demo.api (Demo.cfg_ternausnet (PInt 3)) "ternausnet" (PInt 2)
  = net_select Demo.api (PDict (Demo.top_ternausnet PNone)) "ternausnet" (PInt 2).
Proof.
  apply (net_select_global_only Demo.api (Demo.cfg_ternausnet (PInt 3))
           (PDict (Demo.top_ternausnet PNone)) "ternausnet" (PInt 2)).
  - vm_compute. reflexivity.
  - intros v Hv. vm_compute in Hv. injection Hv as <-. reflexivity.
Defined.

Lemma net_without_coordconv_witness :
  (∀ a, ESwapCoordconv a ∉ trace (net Demo.api (Demo.cfg_unet PNone) false)) ∧
  (∀ t model ck name,
     net Demo.api (Demo.cfg_unet PNone) false = (t, Ok (model, ck, name)) →
     ∃ n t', result (net_num_classes (Demo.cfg_unet PNone)) = Ok n ∧
             net_select Demo.api (Demo.cfg_unet PNone) name n = (t', Ok model)).
Proof.
  apply (net_without_coordconv Demo.api (Demo.cfg_unet PNone) Demo.global_unet false);
    vm_compute; reflexivity.
Defined.

Lemma net_model_failure_witness :
  net Demo.api (Demo.cfg_ternausnet (PInt 4)) true
  = ([], Raise (Exn AssertionError msg_bands)) ∧
  Forall (λ ev, is_print ev = false ∧ is_torch_load ev = false) [].
Proof.
  apply (net_model_failure Demo.api (Demo.cfg_ternausnet (PInt 4)) true []
           (Exn AssertionError msg_bands)).
  vm_compute. reflexivity.
Defined.

Lemma net_no_fallback_witness :
  result (net Demo.api (Demo.cfg_unet (PStr "missing.pth")) true)
  = Raise (Exn FileNotFoundError (msg_no_model_found (PStr "missing.pth"))) ∧
  filter (λ ev, is_torch_load ev = true)
         (trace (net Demo.api (Demo.cfg_unet (PStr "missing.pth")) true))
  = [ETorchLoad (PStr "missing.pth") (map_location Demo.api)].
Proof.
  apply (net_no_fallback Demo.api (Demo.cfg_unet (PStr "missing.pth")) true
           (PStr "missing.pth")
           (Exn FileNotFoundError (msg_no_model_found (PStr "missing.pth")))
           [EWarn msg_one_class; EConstruct Demo.unet_call]
           (Demo.unet_model, "unet"%string));
    vm_compute; reflexivity.
Defined.

Lemma net_inference_section_unread_witness :
  net Demo.api (PDict (Demo.top_ternausnet PNone)) false
  = net Demo.api
      (PDict (<["inference"%string := PStr "anything"]> (Demo.top_ternausnet PNone))) false.
Proof.
  apply (net_inference_section_unread Demo.api (Demo.top_ternausnet PNone)
           (<["inference"%string := PStr "anything"]> (Demo.top_ternausnet PNone)) false).
  - intros k Hk. symmetry. by apply lookup_insert_ne.
  - left. reflexivity.
Defined.

Lemma net_checkpoint_shape_witness :
  Demo.wrapped_external = PNone ∨
  ∃ (d : gmap string pyval) (m : pyval),
    Demo.wrapped_external = PDict d ∧ d !! "model"%string = Some m.
Proof.
  apply (net_checkpoint_shape Demo.api (Demo.cfg_unet (PStr "external.pth")) true
           Demo.unet_trace_external Demo.unet_model Demo.wrapped_external "unet").
  vm_compute. reflexivity.
Defined.

Lemma net_missing_inference_section_witness :
  net Demo.api (PDict (Demo.top_ternausnet PNone)) true
  = ([EConstruct Demo.ternausnet_call], Raise (Exn KeyError [Val (PStr "inference")])).
Proof.
  apply (net_missing_inference_section Demo.api (Demo.top_ternausnet PNone) PNone
           [EConstruct Demo.ternausnet_call] (Demo.ternausnet_model, "ternausnet"%string));
    vm_compute; reflexivity.
Defined.
